(** * The JSON-safe AI extraction pipeline of app.py

    A shallow embedding of [extract_json_from_text] and [analyze_with_ai]
    (with its inner [call_ai] and [prompt]) from [src/app.py], together with
    the parts of the Python runtime they rest on: [str.strip], [str.find],
    [str.rfind], slicing, [re.sub] for the fence pattern, and [json.loads].

    A Python [str] is a sequence of Unicode code points; it is modelled as a
    list of [N].  Python exceptions are values of [exn]; a computation that
    may raise returns a [result]. *)

From Stdlib Require Import String Ascii List NArith ZArith Bool Lia.
Import ListNotations.

Set Implicit Arguments.
Set Warnings "-register-all".

(** ** Python strings *)

Definition pystr := list N.

(** Code points of an ASCII literal. *)
Fixpoint py (s : string) : pystr :=
  match s with
  | EmptyString => []
  | String a r => N_of_ascii a :: py r
  end.

(** As [py], with every apostrophe read as a double quote, to write JSON
    text inside a literal. *)
Definition pyq (s : string) : pystr :=
  map (fun c => if N.eqb c 39 then 34%N else c) (py s).

Arguments py s%_string.
Arguments pyq s%_string.

(** The lines of a text, each followed by a line feed. *)
Definition unlines (ls : list pystr) : pystr :=
  flat_map (fun l => l ++ [10%N]) ls.

Module Str.

Definition eqb (a b : pystr) : bool :=
  if list_eq_dec N.eq_dec a b then true else false.

(** [str.isspace] on one code point: CPython's [_PyUnicode_IsWhitespace]. *)
Definition isspace (c : N) : bool :=
  ((9 <=? c) && (c <=? 13) || (28 <=? c) && (c <=? 32)
   || (c =? 133) || (c =? 160) || (c =? 5760)
   || (8192 <=? c) && (c <=? 8202)
   || (c =? 8232) || (c =? 8233) || (c =? 8239) || (c =? 8287)
   || (c =? 12288))%N.

(** A text of blanks only (possibly none). *)
Definition blank (s : pystr) : Prop := Forall (fun c => isspace c = true) s.

Fixpoint lstrip (s : pystr) : pystr :=
  match s with
  | [] => []
  | c :: r => if isspace c then lstrip r else s
  end.

Definition rstrip (s : pystr) : pystr := rev (lstrip (rev s)).

(** [s.strip()] *)
Definition strip (s : pystr) : pystr := rstrip (lstrip s).

(** [s.find(c)] for a one-character needle: the index of the first
    occurrence, [-1] when there is none. *)
Fixpoint find (c : N) (s : pystr) : Z :=
  match s with
  | [] => (-1)%Z
  | x :: r =>
      if N.eqb x c then 0%Z
      else let i := find c r in if (i =? -1)%Z then (-1)%Z else (i + 1)%Z
  end.

(** [s.rfind(c)]: the index of the last occurrence, [-1] when there is
    none. *)
Fixpoint rfind (c : N) (s : pystr) : Z :=
  match s with
  | [] => (-1)%Z
  | x :: r =>
      let i := rfind c r in
      if (i =? -1)%Z then (if N.eqb x c then 0%Z else (-1)%Z)
      else (i + 1)%Z
  end.

(** One bound of a slice, as Python normalises it against the length. *)
Definition clamp (len i : Z) : Z :=
  if (i <? 0)%Z then Z.max (i + len) 0 else Z.min i len.

(** [s[lo:hi]] *)
Definition slice (s : pystr) (lo hi : Z) : pystr :=
  let len := Z.of_nat (length s) in
  let lo' := clamp len lo in
  let hi' := clamp len hi in
  firstn (Z.to_nat (hi' - lo')) (skipn (Z.to_nat lo') s).

(** [s.startswith(p)] *)
Fixpoint startswith (p s : pystr) : bool :=
  match p, s with
  | [], _ => true
  | _ :: _, [] => false
  | a :: p', b :: s' => N.eqb a b && startswith p' s'
  end.

End Str.


(** ** The fence pattern of [re.sub]

    [re.sub(r"```json|```", "", text, flags=re.IGNORECASE)] scans [text] from
    the left; at each position the alternatives are tried in order, a match
    is deleted and the scan resumes after it, otherwise the character is
    kept.  Under [re.IGNORECASE] a lower-case ASCII letter of the pattern
    matches every code point whose lower case it is, and [s] also matches
    U+017F (sre's case-fix table). *)

Module Fence.

Definition backtick : N := 96.

(** Does code point [c] match pattern letter [p] under [re.IGNORECASE]?
    Only the letters of the pattern are needed: j, s, o, n. *)
Definition ci_match (p c : N) : bool :=
  ((c =? p) || (c =? p - 32) || (p =? 115) && (c =? 383))%N.

Definition is_ticks (s : pystr) : bool :=
  match s with
  | a :: b :: c :: _ =>
      N.eqb a backtick && N.eqb b backtick && N.eqb c backtick
  | _ => false
  end.

Definition is_json (s : pystr) : bool :=
  match s with
  | j :: s' :: o :: n :: _ =>
      ci_match 106 j && ci_match 115 s' && ci_match 111 o && ci_match 110 n
  | _ => false
  end.

(** Length of the match of [```json|```] anchored at the head of [s];
    [0] when the pattern does not match there. *)
Definition match_len (s : pystr) : nat :=
  if is_ticks s then (if is_json (skipn 3 s) then 7 else 3) else 0.

(** The scanner: [skip] counts the characters of the current match still
    to delete. *)
Fixpoint sub_go (skip : nat) (s : pystr) : pystr :=
  match s with
  | [] => []
  | c :: r =>
      match skip with
      | S k => sub_go k r
      | O =>
          match match_len s with
          | O => c :: sub_go 0 r
          | S k => sub_go k r
          end
      end
  end.

(** [re.sub(r"```json|```", "", s, flags=re.IGNORECASE)] *)
Definition sub (s : pystr) : pystr := sub_go 0 s.

(** Does [s] contain three consecutive backticks? *)
Fixpoint contains (s : pystr) : bool :=
  match s with
  | [] => false
  | _ :: r => is_ticks s || contains r
  end.

End Fence.


(** ** Python values and exceptions *)

(** A [float] read from JSON text.  The literal's exact decimal value
    [(-1)^neg * mant * 10^exp10] is kept; rounding to binary64 is not
    performed. *)
Inductive pyfloat : Type :=
| FNan
| FInf (neg : bool)
| FDec (neg : bool) (mant : N) (exp10 : Z).

(** The objects [json.loads] builds. *)
Inductive pyobj : Type :=
| PyNone
| PyBool (b : bool)
| PyInt (z : Z)
| PyFloat (f : pyfloat)
| PyStr (s : pystr)
| PyList (l : list pyobj)
| PyDict (d : list (pystr * pyobj)).

(** How [requests.post] itself can fail. *)
Inductive transport_failure : Type :=
| ConnectionFailed
| TimedOut.

(** The exceptions of the pipeline; all derive from [Exception].
    [JSONDecodeError] carries its [msg]; its position fields are left out. *)
Inductive exn : Type :=
| ValueError (msg : pystr)
| JSONDecodeError (msg : pystr)
| RuntimeError (arg : pystr)
| RequestException (why : transport_failure)
| KeyError
| IndexError
| TypeError
| AttributeError
| StopIteration
| RecursionError.

Inductive result (A : Type) : Type :=
| Ok (a : A)
| Err (e : exn).

Arguments Ok {A} a.
Arguments Err {A} e.

Definition bind {A B} (r : result A) (k : A -> result B) : result B :=
  match r with
  | Ok a => k a
  | Err e => Err e
  end.

Notation "x <- c ;; k" := (bind c (fun x => k))
  (at level 61, c at next level, right associativity).
Notation "' p <- c ;; k" := (bind c (fun x => let 'p := x in k))
  (at level 61, p pattern, c at next level, right associativity).

Definition is_dict (v : pyobj) : bool :=
  match v with PyDict _ => true | _ => false end.

(** The braces that delimit a JSON object. *)
Definition open_brace : N := 123.
Definition close_brace : N := 125.

Definition is_ok {A} (r : result A) : bool :=
  match r with Ok _ => true | Err _ => false end.

(** ** [json.loads]

    The decoder of CPython's [json] package for a [str] document with the
    default options ([strict=True], no hooks): [json.loads] checks for a byte
    order mark, [JSONDecoder.decode] skips blanks, runs the scanner once and
    rejects whatever follows the value.  Each function takes the text still
    to read and returns the value with the text left over.  The interpreter's
    recursion limit and the digit limit of [int] are resource limits of the
    host and are not modelled. *)

Module Json.

Definition is_ws (c : N) : bool :=
  ((c =? 32) || (c =? 9) || (c =? 10) || (c =? 13))%N.

(** [WHITESPACE.match(s, idx).end()] *)
Fixpoint skip_ws (s : pystr) : pystr :=
  match s with
  | [] => []
  | c :: r => if is_ws c then skip_ws r else s
  end.

Definition is_digit (c : N) : bool := ((48 <=? c) && (c <=? 57))%N.

Definition hex_digit (c : N) : option N :=
  if is_digit c then Some (c - 48)%N
  else if ((97 <=? c) && (c <=? 102))%N then Some (c - 87)%N
  else if ((65 <=? c) && (c <=? 70))%N then Some (c - 55)%N
  else None.

Definition hex4 (a b c d : N) : option N :=
  match hex_digit a, hex_digit b, hex_digit c, hex_digit d with
  | Some x, Some y, Some z, Some w => Some (((x * 16 + y) * 16 + z) * 16 + w)%N
  | _, _, _, _ => None
  end.

Definition is_high_surrogate (c : N) : bool :=
  ((55296 <=? c) && (c <=? 56319))%N.
Definition is_low_surrogate (c : N) : bool :=
  ((56320 <=? c) && (c <=? 57343))%N.
Definition join_surrogates (hi lo : N) : N :=
  (65536 + ((hi - 55296) * 1024 + (lo - 56320)))%N.

(** The character a one-letter escape stands for. *)
Definition simple_escape (c : N) : option N :=
  if (c =? 34)%N then Some 34%N
  else if (c =? 92)%N then Some 92%N
  else if (c =? 47)%N then Some 47%N
  else if (c =? 98)%N then Some 8%N
  else if (c =? 102)%N then Some 12%N
  else if (c =? 110)%N then Some 10%N
  else if (c =? 114)%N then Some 13%N
  else if (c =? 116)%N then Some 9%N
  else None.

Definition unterminated : exn :=
  JSONDecodeError (py "Unterminated string starting at").
Definition bad_uescape : exn :=
  JSONDecodeError (py "Invalid \uXXXX escape").

(** [scanstring] with [strict=True], entered after the opening quote;
    [acc] holds the decoded characters, last one first. *)
Fixpoint scanstring_go (acc : pystr) (s : pystr) : result (pystr * pystr) :=
  match s with
  | [] => Err unterminated
  | c :: r =>
      if (c =? 34)%N then Ok (rev acc, r)
      else if (c =? 92)%N then
        match r with
        | [] => Err unterminated
        | e :: r1 =>
            if negb (e =? 117)%N then
              match simple_escape e with
              | Some x => scanstring_go (x :: acc) r1
              | None => Err (JSONDecodeError (py "Invalid \escape"))
              end
            else
              match r1 with
              | h1 :: h2 :: h3 :: h4 :: ((_ :: _) as r2) =>
                  match hex4 h1 h2 h3 h4 with
                  | None => Err bad_uescape
                  | Some u =>
                      match r2 with
                      | b :: u' :: g1 :: g2 :: g3 :: g4 :: ((_ :: _) as r3) =>
                          if is_high_surrogate u && (b =? 92)%N && (u' =? 117)%N
                          then
                            match hex4 g1 g2 g3 g4 with
                            | None => Err bad_uescape
                            | Some u2 =>
                                if is_low_surrogate u2
                                then scanstring_go (join_surrogates u u2 :: acc) r3
                                else scanstring_go (u :: acc) r2
                            end
                          else scanstring_go (u :: acc) r2
                      | _ => scanstring_go (u :: acc) r2
                      end
                  end
              | _ => Err bad_uescape
              end
        end
      else if (c <=? 31)%N then
        Err (JSONDecodeError (py "Invalid control character at"))
      else scanstring_go (c :: acc) r
  end.

Definition scanstring (s : pystr) : result (pystr * pystr) :=
  scanstring_go [] s.

(** The longest run of ASCII digits at the head of [s], and the rest. *)
Fixpoint span_digits (s : pystr) : pystr * pystr :=
  match s with
  | [] => ([], [])
  | c :: r =>
      if is_digit c then let '(ds, rest) := span_digits r in (c :: ds, rest)
      else ([], s)
  end.

(** Value of a run of decimal digits. *)
Definition digits_value (ds : pystr) : N :=
  fold_left (fun a c => (a * 10 + (c - 48))%N) ds 0%N.

(** The integer part of a number, after the optional sign: one zero, or
    a non-zero digit followed by digits. *)
Definition match_integer (s : pystr) : option (pystr * pystr) :=
  match s with
  | c :: r =>
      if (c =? 48)%N then Some ([c], r)
      else if is_digit c then
        let '(ds, rest) := span_digits r in Some (c :: ds, rest)
      else None
  | [] => None
  end.

(** The fraction: a dot followed by at least one digit. *)
Definition match_frac (s : pystr) : pystr * pystr :=
  match s with
  | c :: ((d :: _) as r) =>
      if (c =? 46)%N && is_digit d then span_digits r else ([], s)
  | _ => ([], s)
  end.

(** The exponent: [e] or [E], an optional sign, at least one digit;
    otherwise the scanner backtracks to before the letter. *)
Definition match_exp (s : pystr) : option (bool * pystr) * pystr :=
  match s with
  | c :: r =>
      if (c =? 101)%N || (c =? 69)%N then
        let '(neg, r1) :=
          match r with
          | sg :: ((_ :: _) as r') =>
              if (sg =? 45)%N then (true, r')
              else if (sg =? 43)%N then (false, r')
              else (false, r)
          | _ => (false, r)
          end in
        let '(ds, rest) := span_digits r1 in
        match ds with
        | [] => (None, s)
        | _ :: _ => (Some (neg, ds), rest)
        end
      else (None, s)
  | [] => (None, s)
  end.

(** [_match_number]: an [int] when there is neither fraction nor
    exponent, a [float] otherwise. *)
Definition match_number (s : pystr) : result (pyobj * pystr) :=
  let '(neg, s1) :=
    match s with
    | c :: r => if (c =? 45)%N then (true, r) else (false, s)
    | [] => (false, s)
    end in
  match match_integer s1 with
  | None => Err StopIteration
  | Some (ip, s2) =>
      let '(fp, s3) := match_frac s2 in
      let '(ex, s4) := match_exp s3 in
      match fp, ex with
      | [], None =>
          let v := Z.of_N (digits_value ip) in
          Ok (PyInt (if neg then (- v)%Z else v), s4)
      | _, _ =>
          let e :=
            match ex with
            | None => 0%Z
            | Some (eneg, eds) =>
                let ev := Z.of_N (digits_value eds) in
                if eneg then (- ev)%Z else ev
            end in
          Ok (PyFloat (FDec neg (digits_value (ip ++ fp))
                         (e - Z.of_nat (length fp))), s4)
      end
  end.

(** [dict(pairs)]: a later value for a key replaces the earlier one in
    place; a new key goes last. *)
Fixpoint dict_set (d : list (pystr * pyobj)) (k : pystr) (v : pyobj)
  : list (pystr * pyobj) :=
  match d with
  | [] => [(k, v)]
  | (k', v') :: r =>
      if Str.eqb k' k then (k', v) :: r else (k', v') :: dict_set r k v
  end.

Definition expecting_name : exn :=
  JSONDecodeError (py "Expecting property name enclosed in double quotes").
Definition expecting_colon : exn :=
  JSONDecodeError (py "Expecting ':' delimiter").
Definition expecting_comma : exn :=
  JSONDecodeError (py "Expecting ',' delimiter").

(** The scanner.  [scan_once] reads one value; [object_loop] reads the
    members of an object from a key on, [array_loop] the items of an
    array from an item on.  [fuel] bounds the depth of the calls. *)
Fixpoint scan_once (fuel : nat) (s : pystr) {struct fuel}
  : result (pyobj * pystr) :=
  match fuel with
  | O => Err RecursionError
  | S f =>
      match s with
      | [] => Err StopIteration
      | c :: r =>
          if (c =? 34)%N then
            '(str, rest) <- scanstring r ;; Ok (PyStr str, rest)
          else if (c =? 123)%N then
            match skip_ws r with
            | c' :: r' =>
                if (c' =? 125)%N then Ok (PyDict [], r')
                else object_loop f [] (c' :: r')
            | [] => object_loop f [] []
            end
          else if (c =? 91)%N then
            match skip_ws r with
            | c' :: r' =>
                if (c' =? 93)%N then Ok (PyList [], r')
                else array_loop f [] (c' :: r')
            | [] => array_loop f [] []
            end
          else if Str.startswith (py "null") s then Ok (PyNone, skipn 4 s)
          else if Str.startswith (py "true") s then Ok (PyBool true, skipn 4 s)
          else if Str.startswith (py "false") s then Ok (PyBool false, skipn 5 s)
          else if Str.startswith (py "NaN") s then Ok (PyFloat FNan, skipn 3 s)
          else if Str.startswith (py "Infinity") s
          then Ok (PyFloat (FInf false), skipn 8 s)
          else if Str.startswith (py "-Infinity") s
          then Ok (PyFloat (FInf true), skipn 9 s)
          else match_number s
      end
  end

with object_loop (fuel : nat) (d : list (pystr * pyobj)) (s : pystr)
       {struct fuel} : result (pyobj * pystr) :=
  match fuel with
  | O => Err RecursionError
  | S f =>
      match s with
      | c :: r =>
          if (c =? 34)%N then
            '(key, r1) <- scanstring r ;;
            match skip_ws r1 with
            | c1 :: r2 =>
                if (c1 =? 58)%N then
                  '(val, r3) <- scan_once f (skip_ws r2) ;;
                  let d' := dict_set d key val in
                  match skip_ws r3 with
                  | c2 :: r4 =>
                      if (c2 =? 125)%N then Ok (PyDict d', r4)
                      else if (c2 =? 44)%N
                      then object_loop f d' (skip_ws r4)
                      else Err expecting_comma
                  | [] => Err expecting_comma
                  end
                else Err expecting_colon
            | [] => Err expecting_colon
            end
          else Err expecting_name
      | [] => Err expecting_name
      end
  end

with array_loop (fuel : nat) (l : list pyobj) (s : pystr) {struct fuel}
  : result (pyobj * pystr) :=
  match fuel with
  | O => Err RecursionError
  | S f =>
      '(val, r1) <- scan_once f s ;;
      match skip_ws r1 with
      | c :: r2 =>
          if (c =? 93)%N then Ok (PyList (l ++ [val]), r2)
          else if (c =? 44)%N then array_loop f (l ++ [val]) (skip_ws r2)
          else Err expecting_comma
      | [] => Err expecting_comma
      end
  end.

(** The exceptions the scanner raises on its own. *)
Definition scanner_exn (e : exn) : Prop :=
  match e with
  | JSONDecodeError _ | StopIteration | RecursionError => True
  | _ => False
  end.

(** What a scanner function guarantees on text [s] with fuel [f]: a
    result leaves strictly less text and satisfies [Q]; a failure is one of
    the scanner's own, and is not exhaustion of the fuel when [need] of it
    was given. *)
Definition scan_post (Q : pyobj -> Prop) (f need : nat) (s : pystr)
    (r : result (pyobj * pystr)) : Prop :=
  match r with
  | Ok (v, rest) => length rest < length s /\ Q v
  | Err e => scanner_exn e /\ (need <= f -> e <> RecursionError)
  end.

Definition braced (s : pystr) (v : pyobj) : Prop :=
  hd_error s = Some open_brace -> is_dict v = true.

(** [JSONDecoder.raw_decode] from the first non-blank character. *)
Definition raw_decode (s : pystr) : result (pyobj * pystr) :=
  match scan_once (2 * length s + 1) s with
  | Err StopIteration => Err (JSONDecodeError (py "Expecting value"))
  | r => r
  end.

(** [JSONDecoder.decode] *)
Definition decode (s : pystr) : result pyobj :=
  '(obj, rest) <- raw_decode (skip_ws s) ;;
  match skip_ws rest with
  | [] => Ok obj
  | _ :: _ => Err (JSONDecodeError (py "Extra data"))
  end.

(** [json.loads(s)] for a [str] *)
Definition loads (s : pystr) : result pyobj :=
  if Str.startswith [65279%N] s
  then Err (JSONDecodeError (py "Unexpected UTF-8 BOM (decode using utf-8-sig)"))
  else decode s.

End Json.


(** ** Operations on Python objects used by the source *)

Module Obj.

(** Is the binary64 nearest to [mant * 10^exp10] zero?  It is when the
    value does not exceed [2^-1075], half the least subnormal. *)
Definition rounds_to_zero (mant : N) (exp10 : Z) : bool :=
  if (exp10 <? 0)%Z
  then (Z.of_N mant * 2 ^ 1075 <=? 10 ^ (- exp10))%Z
  else (mant =? 0)%N.

(** [bool(x)] *)
Definition truthy (x : pyobj) : bool :=
  match x with
  | PyNone => false
  | PyBool b => b
  | PyInt z => negb (z =? 0)%Z
  | PyFloat FNan => true
  | PyFloat (FInf _) => true
  | PyFloat (FDec _ m e) => negb (rounds_to_zero m e)
  | PyStr s => match s with [] => false | _ :: _ => true end
  | PyList l => match l with [] => false | _ :: _ => true end
  | PyDict d => match d with [] => false | _ :: _ => true end
  end.

Fixpoint lookup (d : list (pystr * pyobj)) (k : pystr) : option pyobj :=
  match d with
  | [] => None
  | (k', v) :: r => if Str.eqb k' k then Some v else lookup r k
  end.

(** [x[k]] for a [str] key *)
Definition getitem_str (x : pyobj) (k : pystr) : result pyobj :=
  match x with
  | PyDict d => match lookup d k with Some v => Ok v | None => Err KeyError end
  | _ => Err TypeError
  end.

(** [x[0]] *)
Definition getitem_0 (x : pyobj) : result pyobj :=
  match x with
  | PyList l => match l with v :: _ => Ok v | [] => Err IndexError end
  | PyStr s => match s with c :: _ => Ok (PyStr [c]) | [] => Err IndexError end
  | PyDict _ => Err KeyError
  | _ => Err TypeError
  end.

(** [x.get(k, default)] *)
Definition get (x : pyobj) (k : pystr) (default : pyobj) : result pyobj :=
  match x with
  | PyDict d => match lookup d k with Some v => Ok v | None => Ok default end
  | _ => Err AttributeError
  end.

End Obj.

(** ** [extract_json_from_text] *)


Definition empty_response : exn := ValueError (py "Empty AI response").
Definition no_json : exn := ValueError (py "No JSON detected").

(** The function is annotated for a [str] but receives whatever [call_ai]
    returns: a falsy object of any type is rejected by the first test, and a
    truthy one that is not a [str] has no [strip]. *)
Definition extract_json_from_text (text : pyobj) : result pyobj :=
  if negb (Obj.truthy text) then Err empty_response
  else
    match text with
    | PyStr s =>
        if negb (Obj.truthy (PyStr (Str.strip s))) then Err empty_response
        else
          let text := Str.strip (Fence.sub s) in
          let start := Str.find open_brace text in
          let end_ := Str.rfind close_brace text in
          if (start =? -1)%Z || (end_ =? -1)%Z then Err no_json
          else Json.loads (Str.slice text start (end_ + 1))
    | _ => Err AttributeError
    end.


(** ** The chat-completion endpoint *)

Record ChatMessage : Type := { role : pystr; content : pyobj }.

(** The [json=] payload of the request and the part of its headers that
    varies. *)
Record Request : Type := {
  url : pystr;
  authorization : pystr;
  model : pystr;
  messages : list ChatMessage;
  temperature : Z;
  max_tokens : Z;
  response_format : pystr;
  timeout : Z
}.

Record Response : Type := { status_code : Z; text : pystr }.

(** What [requests.post] does: raise, or return a response. *)
Inductive post_outcome : Type :=
| Raised (why : transport_failure)
| Returned (resp : Response).

(** The requests sent so far, oldest first. *)
Definition log := list Request.

(** A computation that may send requests and may raise. *)
Definition M (A : Type) : Type := log -> result A * log.

Definition ret {A} (a : A) : M A := fun l => (Ok a, l).

Definition raise {A} (e : exn) : M A := fun l => (Err e, l).

Definition lift {A} (r : result A) : M A := fun l => (r, l).

Definition mbind {A B} (m : M A) (k : A -> M B) : M B :=
  fun l =>
    match m l with
    | (Ok a, l') => k a l'
    | (Err e, l') => (Err e, l')
    end.

(** [try: body / except Exception: pass], followed by [rest]: [body]
    returns from the function when it succeeds. *)
Definition try_or {A} (body rest : M A) : M A :=
  fun l =>
    match body l with
    | (Ok a, l') => (Ok a, l')
    | (Err _, l') => rest l'
    end.

Notation "x <~ c ;; k" := (mbind c (fun x => k))
  (at level 61, c at next level, right associativity).

(** [response.json()["choices"][0]["message"].get("content", "")] *)
Definition first_choice_content (resp : Response) : result pyobj :=
  body <- Json.loads (text resp) ;;
  choices <- Obj.getitem_str body (py "choices") ;;
  choice <- Obj.getitem_0 choices ;;
  message <- Obj.getitem_str choice (py "message") ;;
  Obj.get message (py "content") (PyStr []).

Section Analysis.

(** The secret [OPENROUTER_API_KEY], supplied by the host. *)
Variable api_key : pystr.

(** The service: its answer to a request, given how many requests it has
    received before. *)
Variable upstream : nat -> Request -> post_outcome.

Definition chat_request (msgs : list ChatMessage) : Request :=
  {| url := py "https://openrouter.ai/api/v1/chat/completions";
     authorization := py "Bearer " ++ api_key;
     model := py "openai/gpt-4o-mini";
     messages := msgs;
     temperature := 0;
     max_tokens := 600;
     response_format := py "json_object";
     timeout := 60 |}.

Definition call_ai (msgs : list ChatMessage) : M pyobj :=
  fun l =>
    let req := chat_request msgs in
    let l' := l ++ [req] in
    match upstream (length l) req with
    | Raised why => (Err (RequestException why), l')
    | Returned response =>
        if negb (status_code response =? 200)%Z
        then (Err (RuntimeError (text response)), l')
        else (first_choice_content response, l')
    end.

Definition system_instruction : pystr :=
  py "You MUST return ONLY valid JSON. No explanations.".

Definition template_head : pystr :=
  unlines
    [ [];
      py "Return JSON in EXACTLY this format:";
      py "{";
      pyq "  'key_points': ['point 1', 'point 2'],";
      pyq "  'risk_level': 'Low | Medium | High',";
      pyq "  'risk_reason': 'string',";
      pyq "  'summary': 'string'";
      py "}";
      [];
      py "User Question:" ].

Definition template_middle : pystr :=
  unlines [ []; []; py "Document Text:" ].

Definition template_tail : pystr := [10%N].

Definition prompt (document_text user_question : pystr)
  : list ChatMessage :=
  [ {| role := py "system"; content := PyStr system_instruction |};
    {| role := py "user";
       content :=
         PyStr (template_head ++ user_question ++ template_middle
                ++ Str.slice document_text 0 6000 ++ template_tail) |} ].

Definition repair_instruction : pystr :=
  py "Fix and return ONLY valid JSON.".

Definition repair_prompt (raw : pyobj) : list ChatMessage :=
  [ {| role := py "system"; content := PyStr repair_instruction |};
    {| role := py "user"; content := raw |} ].

Definition attempt1 (p : list ChatMessage) : M pyobj :=
  raw <~ call_ai p ;; lift (extract_json_from_text raw).

Definition attempt2 (p : list ChatMessage) : M pyobj :=
  raw <~ call_ai p ;;
  fixed <~ call_ai (repair_prompt raw) ;;
  lift (extract_json_from_text fixed).

Definition attempt3 (p : list ChatMessage) : M pyobj :=
  raw <~ call_ai p ;; lift (extract_json_from_text raw).

Definition analyze_with_ai (document_text user_question : pystr) : M pyobj :=
  let p := prompt document_text user_question in
  try_or (attempt1 p) (try_or (attempt2 p) (attempt3 p)).

End Analysis.

(** Scripted services for examples. *)

(** A [200] response whose first choice carries [content_json], a JSON
    text. *)
Definition completion (content_json : pystr) : Response :=
  {| status_code := 200;
     text := pyq "{'id': 'x', 'choices': [{'index': 0, 'message': {'role': 'assistant', 'content': "
             ++ content_json ++ pyq "}}]}" |}.

(** Replies from a script, one per request; [last] once the script is
    exhausted. *)
Definition scripted (script : list post_outcome) (last : post_outcome)
  : nat -> Request -> post_outcome :=
  fun n _ => nth n script last.


(** A service that always answers with a completion whose content is the
    text [garbage]. *)
Definition garbage_service : nat -> Request -> post_outcome :=
  scripted [] (Returned (completion (pyq "'garbage'"))).

(** A service whose first two answers are prose and whose third is a JSON
    object in a fence. *)
Definition repairing_service : nat -> Request -> post_outcome :=
  scripted
    [ Returned (completion (pyq "'I cannot answer in JSON'"));
      Returned (completion (pyq "'risk is low'"));
      Returned (completion (pyq "'```json {\'risk_level\': \'Low\'} ```'")) ]
    (Raised TimedOut).

(** A service that always answers with the object [{"a": 1}]. *)
Definition one_field_service : nat -> Request -> post_outcome :=
  scripted [] (Returned (completion (pyq "'{\'a\': 1}'"))).

(** A response with the given status and a well-formed completion body. *)
Definition with_status (st : Z) : Response :=
  {| status_code := st; text := text (completion (pyq "'ok'")) |}.

(** The four fields of a StructuredInsight. *)
Definition insight_fields : list pystr :=
  [py "key_points"; py "risk_level"; py "risk_reason"; py "summary"].

Definition has_insight_fields (v : pyobj) : bool :=
  match v with
  | PyDict d =>
      forallb (fun k => match Obj.lookup d k with Some _ => true | None => false end)
        insight_fields
  | _ => false
  end.


(** ** The characters the fence pattern can delete *)

(** A backtick, or a letter that matches one of [j], [s], [o], [n] under
    [re.IGNORECASE]. *)
Definition fence_char (c : N) : bool :=
  N.eqb c Fence.backtick || Fence.ci_match 106 c || Fence.ci_match 115 c
  || Fence.ci_match 111 c || Fence.ci_match 110 c.

Definition kept_char (c : N) : bool := negb (fence_char c).

(** ** The page script around the analysis

    Lines 131 to 249 of [app.py] run top to bottom each time the page is
    rerun.  A run reads the widgets (the inputs), the session state kept
    between runs, and the two services; it displays elements, changes the
    session state, and ends normally, by [st.stop()], or on an uncaught
    exception.  [st.stop()] raises a control exception that does not derive
    from [Exception], so no handler of the script catches it.  The session
    state is a [dict], modelled as the decoder's dictionaries are. *)

(** What the page displays.  A message built by an f-string from an
    exception or an arbitrary object carries that value instead of its
    rendering. *)
Inductive ui : Type :=
| Divider
| Header (s : pystr)
| Subheader (s : pystr)
| TextArea (label : pystr) (value : pyobj) (height : Z)
| TextInput (label : pystr)
| Button (label : pystr)
| Spinner (s : pystr)
| ShowJson (v : pyobj)
| Write (v : pyobj)
| Error (s : pystr)
| ErrorInvalidJson (e : exn) (body : pystr)
| ErrorWebhookFailed (status : option Z) (why : option transport_failure)
| SuccessEmailStatus (v : pyobj).

(** An uploaded file: its MIME type, what [pdfplumber] extracts from it page
    by page ([None] for a page without text; no list when the file cannot be
    opened as a PDF), and its content decoded as UTF-8 when that succeeds. *)
Record UploadedFile : Type := {
  file_type : pystr;
  pdf_pages : option (list (option pystr));
  utf8_text : option pystr
}.

(** The values of the widgets during one run. *)
Record Inputs : Type := {
  uploaded_file : option UploadedFile;
  user_question : pystr;
  analyze_clicked : bool;
  email_typed : pystr;
  send_clicked : bool
}.

(** Why a run aborts. *)
Inductive failure : Type :=
| PdfUnreadable
| NotUtf8
| Uncaught (e : exn).

Inductive status : Type :=
| Running
| Stopped
| Crashed (why : failure).

(** The state a run works on: the session state, the elements displayed,
    the requests sent to the model and the payloads posted to the webhook,
    each oldest first. *)
Record Page : Type := {
  session : list (pystr * pyobj);
  shown : list ui;
  sent : log;
  posted : list pyobj
}.

Definition show (es : list ui) (pg : Page) : Page :=
  {| session := session pg; shown := shown pg ++ es;
     sent := sent pg; posted := posted pg |}.

Definition with_sent (l : log) (pg : Page) : Page :=
  {| session := session pg; shown := shown pg; sent := l;
     posted := posted pg |}.

Definition with_session (ss : list (pystr * pyobj)) (pg : Page) : Page :=
  {| session := ss; shown := shown pg; sent := sent pg;
     posted := posted pg |}.

Definition with_posted (payload : pyobj) (pg : Page) : Page :=
  {| session := session pg; shown := shown pg; sent := sent pg;
     posted := posted pg ++ [payload] |}.

(** [st.session_state.get(k)] *)
Definition session_get (ss : list (pystr * pyobj)) (k : pystr) : pyobj :=
  match Obj.lookup ss k with
  | Some v => v
  | None => PyNone
  end.

(** [sep.join(parts)] *)
Fixpoint join (sep : pystr) (parts : list pystr) : pystr :=
  match parts with
  | [] => []
  | [x] => x
  | x :: r => x ++ sep ++ join sep r
  end.

(** [page.extract_text() or ""] *)
Definition page_text (t : option pystr) : pystr :=
  match t with
  | Some (c :: r) => c :: r
  | _ => []
  end.

(** Lines 139 to 145: the text of the uploaded file. *)
Definition read_document (f : UploadedFile) : option pystr * failure :=
  if Str.eqb (file_type f) (py "application/pdf") then
    match pdf_pages f with
    | Some pages => (Some (join [10%N] (map page_text pages)), PdfUnreadable)
    | None => (None, PdfUnreadable)
    end
  else (utf8_text f, NotUtf8).

Definition not_returned : pyobj := PyStr (py "Not returned by webhook").

(** [result.get(k, "Not returned by webhook")] on a [dict]. *)
Definition field_or_default (d : list (pystr * pyobj)) (k : pystr) : pyobj :=
  match Obj.lookup d k with
  | Some v => v
  | None => not_returned
  end.

Section Script.

Variable api_key : pystr.
Variable upstream : nat -> Request -> post_outcome.

(** The automation webhook: its answer to a posted payload. *)
Variable webhook : pyobj -> post_outcome.

(** Stage 2, lines 131 to 169. *)
Definition stage2 (inp : Inputs) (pg : Page) : status * Page :=
  if negb (analyze_clicked inp) then (Running, pg)
  else
    let pg := show [Divider;
                    Header ([50; 65039; 8419]%N ++ py " Document Analysis")] pg in
    match uploaded_file inp with
    | None => (Stopped, show [Error (py "Please upload a document.")] pg)
    | Some f =>
        match read_document f with
        | (None, why) => (Crashed why, pg)
        | (Some extracted_text, _) =>
            let pg :=
              show [Subheader ([128196%N] ++ py " Extracted Text Preview");
                    TextArea (py "Content")
                      (PyStr (Str.slice extracted_text 0 3000)) 300;
                    Spinner (py "Analyzing document with AI...")] pg in
            match analyze_with_ai api_key upstream extracted_text
                    (user_question inp) (sent pg) with
            | (Ok structured_data, l) =>
                let pg :=
                  show [Subheader ([129513%N] ++ py " Structured Insights");
                        ShowJson structured_data] (with_sent l pg) in
                let ss := session pg in
                let ss := Json.dict_set ss (py "analysis_done") (PyBool true) in
                let ss := Json.dict_set ss (py "structured_data") structured_data in
                let ss := Json.dict_set ss (py "extracted_text") (PyStr extracted_text) in
                let ss := Json.dict_set ss (py "user_question")
                            (PyStr (user_question inp)) in
                (Running, with_session ss pg)
            | (Err _, l) =>
                (Stopped,
                 show [Error (py "AI analysis failed. Please try again.")]
                   (with_sent l pg))
            end
        end
    end.

(** Stage 3, lines 175 to 183.  The text input is keyed: displaying it
    stores its value in the session state under [email_input]. *)
Definition stage3 (inp : Inputs) (pg : Page) : status * Page :=
  if Obj.truthy (session_get (session pg) (py "analysis_done")) then
    let pg :=
      show [Divider;
            Header ([51; 65039; 8419]%N ++ py " Send Conditional Alert Email");
            TextInput (py "Recipient Email ID")] pg in
    let pg :=
      with_session (Json.dict_set (session pg) (py "email_input")
                      (PyStr (email_typed inp))) pg in
    let pg := show [Button (py "Send Alert Mail")] pg in
    if send_clicked inp
    then (Running,
          with_session (Json.dict_set (session pg) (py "send_email")
                          (PyBool true)) pg)
    else (Running, pg)
  else (Running, pg).

(** [st.session_state[k]] *)
Definition session_item (ss : list (pystr * pyobj)) (k : pystr)
  : result pyobj :=
  match Obj.lookup ss k with
  | Some v => Ok v
  | None => Err KeyError
  end.

(** Lines 200 to 205. *)
Definition build_payload (ss : list (pystr * pyobj)) (recipient_email : pyobj)
  : result pyobj :=
  document_text <- session_item ss (py "extracted_text") ;;
  question <- session_item ss (py "user_question") ;;
  structured_data <- session_item ss (py "structured_data") ;;
  Ok (PyDict [ (py "document_text", document_text);
               (py "question", question);
               (py "structured_data", structured_data);
               (py "recipient_email", recipient_email) ]).

(** [r.raise_for_status()] raises for the 4xx and 5xx statuses. *)
Definition is_http_error (st : Z) : bool := (400 <=? st)%Z && (st <? 600)%Z.

(** Lines 235 to 249, reached with the webhook's decoded answer. *)
Definition present_result (result : pyobj) (pg : Page) : status * Page :=
  match Obj.get result (py "final_answer") not_returned with
  | Err e => (Crashed (Uncaught e), pg)
  | Ok final_answer =>
      match Obj.get result (py "email_body") not_returned,
            Obj.get result (py "email_status") not_returned with
      | Ok email_body, Ok email_status =>
          let pg :=
            show [Subheader ([128202%N] ++ py " Final Analytical Answer");
                  Write final_answer;
                  Subheader ([128231%N] ++ py " Generated Email Body");
                  TextArea (py "Email") email_body 200;
                  SuccessEmailStatus email_status] pg in
          (Running,
           with_session (Json.dict_set (session pg) (py "send_email")
                           (PyBool false)) pg)
      | Err e, _ => (Crashed (Uncaught e), pg)
      | _, Err e => (Crashed (Uncaught e), pg)
      end
  end.

(** Stage 4, lines 189 to 249. *)
Definition stage4 (pg : Page) : status * Page :=
  if Obj.truthy (session_get (session pg) (py "send_email")) then
    let pg := show [Divider;
                    Header ([52; 65039; 8419]%N ++ py " Automation Results")] pg in
    let recipient_email := session_get (session pg) (py "email_input") in
    if negb (Obj.truthy recipient_email)
    then (Stopped, show [Error (py "Recipient email required.")] pg)
    else
      match build_payload (session pg) recipient_email with
      | Err e => (Crashed (Uncaught e), pg)
      | Ok payload =>
          let pg := show [Spinner (py "Triggering automation...")] pg in
          let pg := with_posted payload pg in
          match webhook payload with
          | Raised why =>
              (Stopped, show [ErrorWebhookFailed None (Some why)] pg)
          | Returned r =>
              if is_http_error (status_code r)
              then (Stopped,
                    show [ErrorWebhookFailed (Some (status_code r)) None] pg)
              else if negb (Obj.truthy (PyStr (text r)))
              then (Stopped,
                    show [Error (py "Webhook returned empty response. Check N8N workflow configuration.")]
                      pg)
              else
                match Json.loads (text r) with
                | Err e => (Stopped, show [ErrorInvalidJson e (text r)] pg)
                | Ok result =>
                    present_result result
                      (show [Write (PyStr ([128269%N] ++ py " **Webhook Response:**"));
                             ShowJson result] pg)
                end
          end
      end
  else (Running, pg).

(** One run of the three stages. *)
Definition script (inp : Inputs) (pg : Page) : status * Page :=
  match stage2 inp pg with
  | (Running, pg) =>
      match stage3 inp pg with
      | (Running, pg) => stage4 pg
      | stopped => stopped
      end
  | stopped => stopped
  end.

End Script.

(** What the script relies on between runs: once the analysis is marked as
    done its three results are stored, and an email is requested only after
    an analysis. *)
Definition stored (ss : list (pystr * pyobj)) (k : pystr) : Prop :=
  Obj.lookup ss k <> None.

Definition session_ok (ss : list (pystr * pyobj)) : Prop :=
  (Obj.truthy (session_get ss (py "analysis_done")) = true ->
   stored ss (py "extracted_text") /\ stored ss (py "user_question")
   /\ stored ss (py "structured_data"))
  /\ (Obj.truthy (session_get ss (py "send_email")) = true ->
      Obj.truthy (session_get ss (py "analysis_done")) = true).

(** An empty page over a session state. *)
Definition fresh (ss : list (pystr * pyobj)) : Page :=
  {| session := ss; shown := []; sent := []; posted := [] |}.

(** Sample inputs and sessions for examples. *)

Definition text_file (t : pystr) : UploadedFile :=
  {| file_type := py "text/plain"; pdf_pages := None; utf8_text := Some t |}.

Definition analyze_inputs (f : UploadedFile) (q : pystr) : Inputs :=
  {| uploaded_file := Some f; user_question := q; analyze_clicked := true;
     email_typed := []; send_clicked := false |}.

Definition idle_inputs (email : pystr) : Inputs :=
  {| uploaded_file := None; user_question := []; analyze_clicked := false;
     email_typed := email; send_clicked := false |}.

(** The session after an analysis, with an email typed and requested. *)
Definition requested_session : list (pystr * pyobj) :=
  [ (py "analysis_done", PyBool true);
    (py "structured_data", PyDict [(py "risk_level", PyStr (py "Low"))]);
    (py "extracted_text", PyStr (py "the document"));
    (py "user_question", PyStr (py "q"));
    (py "email_input", PyStr (py "a@b.c"));
    (py "send_email", PyBool true) ].

(** A webhook that always gives the same answer. *)
Definition hook_answer (r : Response) : pyobj -> post_outcome :=
  fun _ => Returned r.

(** What stage 4 has displayed once the webhook's answer is decoded and
    shown. *)
Definition shown_before_result (pg : Page) (result : pyobj) : list ui :=
  shown pg
  ++ [ Divider;
       Header ([52; 65039; 8419]%N ++ py " Automation Results");
       Spinner (py "Triggering automation...");
       Write (PyStr ([128269%N] ++ py " **Webhook Response:**"));
       ShowJson result ].

(** * Properties *)

(** Closes a scanner postcondition on a [JSONDecodeError] or
    [StopIteration]. *)
Ltac scan_fail := split; [exact I | intros _; discriminate].

(** ** Strings *)

Module StrFacts.
Import Str.

Lemma eqb_eq a b : eqb a b = true <-> a = b.
Proof.
  unfold eqb. destruct (list_eq_dec N.eq_dec a b); split; congruence.
Qed.

Lemma eqb_refl a : eqb a a = true.
Proof. now apply eqb_eq. Qed.

Lemma lstrip_nil_iff s : lstrip s = [] <-> Forall (fun c => isspace c = true) s.
Proof.
  induction s as [|c r IH]; simpl.
  - split; auto.
  - destruct (isspace c) eqn:E.
    + rewrite IH. split; intro H.
      * now constructor.
      * now inversion H.
    + split; intro H; [discriminate|]. inversion H; congruence.
Qed.

Lemma strip_nil_iff s : strip s = [] <-> Forall (fun c => isspace c = true) s.
Proof.
  unfold strip, rstrip. split; intro H.
  - apply lstrip_nil_iff.
    destruct (lstrip s) as [|c r] eqn:E; [reflexivity|].
    assert (Hr : lstrip (rev (c :: r)) = []).
    { apply (f_equal (@rev N)) in H. now rewrite rev_involutive in H. }
    apply lstrip_nil_iff in Hr. apply Forall_rev in Hr.
    rewrite rev_involutive in Hr. inversion Hr as [|? ? Hc _]; subst.
    simpl in E. destruct s as [|x s']; [discriminate|].
    exfalso. clear -E Hc.
    induction (x :: s') as [|y t IH]; simpl in E; [discriminate|].
    destruct (isspace y) eqn:Ey; [auto|].
    injection E as -> _. congruence.
  - apply lstrip_nil_iff in H. rewrite H. reflexivity.
Qed.

Lemma lstrip_app_keep x c r :
  isspace c = false -> lstrip (x ++ c :: r) = lstrip x ++ c :: r.
Proof.
  intro Hc. induction x as [|y x IH]; simpl.
  - now rewrite Hc.
  - destruct (isspace y); auto.
Qed.

Lemma rstrip_app_keep r c y :
  isspace c = false -> rstrip (r ++ c :: y) = r ++ c :: rstrip y.
Proof.
  intro Hc. unfold rstrip.
  rewrite rev_app_distr. simpl rev. rewrite <- app_assoc. simpl.
  rewrite lstrip_app_keep by assumption.
  rewrite rev_app_distr. simpl. rewrite rev_involutive.
  now rewrite <- app_assoc.
Qed.

Lemma lstrip_incl c s : In c (lstrip s) -> In c s.
Proof.
  induction s as [|y s IH]; simpl; auto.
  destruct (isspace y); simpl; auto.
Qed.

Lemma rstrip_incl c s : In c (rstrip s) -> In c s.
Proof.
  unfold rstrip. intro H. apply in_rev in H. apply lstrip_incl in H.
  now apply in_rev.
Qed.

(** Stripping a text whose first and last kept characters are not blank
    only trims what lies around them. *)
Lemma strip_around x c m d y :
  isspace c = false -> isspace d = false ->
  strip (x ++ (c :: m ++ [d]) ++ y) = lstrip x ++ (c :: m ++ [d]) ++ rstrip y.
Proof.
  intros Hc Hd. unfold strip. simpl.
  rewrite lstrip_app_keep by assumption.
  replace (lstrip x ++ c :: (m ++ [d]) ++ y)
    with ((lstrip x ++ c :: m) ++ d :: y)
    by (repeat (rewrite <- app_assoc; simpl); reflexivity).
  rewrite rstrip_app_keep by assumption.
  repeat (rewrite <- app_assoc; simpl). reflexivity.
Qed.

Lemma find_notin c s : ~ In c s -> find c s = (-1)%Z.
Proof.
  induction s as [|x r IH]; simpl; intro H; [reflexivity|].
  destruct (N.eqb_spec x c) as [->|_]; [tauto|].
  rewrite IH by tauto. reflexivity.
Qed.

Lemma find_first c a r :
  ~ In c a -> find c (a ++ c :: r) = Z.of_nat (length a).
Proof.
  induction a as [|x a IH]; simpl; intro H.
  - now rewrite N.eqb_refl.
  - destruct (N.eqb_spec x c) as [->|_]; [tauto|].
    rewrite IH by tauto.
    destruct (Z.eqb_spec (Z.of_nat (length a)) (-1)); lia.
Qed.

Lemma rfind_notin c s : ~ In c s -> rfind c s = (-1)%Z.
Proof.
  induction s as [|x r IH]; simpl; intro H; [reflexivity|].
  rewrite IH by tauto. simpl.
  destruct (N.eqb_spec x c) as [->|_]; tauto.
Qed.

Lemma rfind_last c a b :
  ~ In c b -> rfind c (a ++ c :: b) = Z.of_nat (length a).
Proof.
  intro H. induction a as [|x a IH]; simpl.
  - rewrite rfind_notin by assumption. simpl. now rewrite N.eqb_refl.
  - rewrite IH.
    destruct (Z.eqb_spec (Z.of_nat (length a)) (-1)); lia.
Qed.

(** A hit of [find] is the position of an occurrence. *)
Lemma find_hit c s :
  find c s <> (-1)%Z ->
  exists a r, s = a ++ c :: r /\ find c s = Z.of_nat (length a).
Proof.
  induction s as [|x s IH]; simpl; intro H; [congruence|].
  destruct (N.eqb_spec x c) as [->|Hx].
  - exists [], s. auto.
  - destruct (Z.eqb_spec (find c s) (-1)) as [E|E]; [congruence|].
    destruct (IH E) as (a & r & -> & Hf).
    exists (x :: a), r. split; [reflexivity|]. rewrite Hf. simpl length. lia.
Qed.

Lemma slice_segment a seg b :
  slice (a ++ seg ++ b) (Z.of_nat (length a))
    (Z.of_nat (length a) + Z.of_nat (length seg)) = seg.
Proof.
  unfold slice, clamp. rewrite !length_app.
  destruct (Z.ltb_spec (Z.of_nat (length a)) 0); [lia|].
  destruct (Z.ltb_spec (Z.of_nat (length a) + Z.of_nat (length seg)) 0); [lia|].
  rewrite !Z.min_l by lia.
  replace (Z.to_nat (Z.of_nat (length a) + Z.of_nat (length seg) - Z.of_nat (length a)))
    with (length seg) by lia.
  rewrite Nat2Z.id.
  rewrite skipn_app, skipn_all, Nat.sub_diag. simpl.
  rewrite firstn_app, firstn_all, Nat.sub_diag. simpl.
  apply app_nil_r.
Qed.

(** A slice from a hit of [find] is empty or begins with the character
    found. *)
Lemma slice_from_find c s hi :
  find c s <> (-1)%Z ->
  slice s (find c s) hi = [] \/ exists r, slice s (find c s) hi = c :: r.
Proof.
  intro H. destruct (find_hit c s H) as (a & r & -> & Hf).
  rewrite Hf. unfold slice.
  set (len := Z.of_nat (length (a ++ c :: r))).
  assert (Hlo : clamp len (Z.of_nat (length a)) = Z.of_nat (length a)).
  { unfold clamp, len. rewrite length_app. simpl length.
    destruct (Z.ltb_spec (Z.of_nat (length a)) 0); lia. }
  rewrite Hlo, Nat2Z.id.
  rewrite skipn_app, skipn_all, Nat.sub_diag. simpl.
  destruct (Z.to_nat (clamp len hi - Z.of_nat (length a))); simpl; eauto.
Qed.

Lemma slice_prefix s n :
  slice s 0 (Z.of_nat n) = firstn n s.
Proof.
  unfold slice.
  assert (Hlo : clamp (Z.of_nat (length s)) 0 = 0%Z).
  { unfold clamp. simpl. lia. }
  assert (Hhi : clamp (Z.of_nat (length s)) (Z.of_nat n)
                = Z.of_nat (Nat.min n (length s))).
  { unfold clamp. destruct (Z.ltb_spec (Z.of_nat n) 0); lia. }
  rewrite Hlo, Hhi, Z.sub_0_r, Nat2Z.id. simpl skipn.
  destruct (Nat.min_spec n (length s)) as [[Hlt ->]|[Hge ->]].
  - reflexivity.
  - rewrite firstn_all. symmetry. apply firstn_all2. lia.
Qed.

End StrFacts.

(** ** The fence scanner *)

Module FenceFacts.
Import Fence.

Arguments match_len : simpl never.

Lemma sub_go_cons k c r :
  sub_go k (c :: r) =
  match k with
  | S k' => sub_go k' r
  | O => match match_len (c :: r) with
         | O => c :: sub_go 0 r
         | S k' => sub_go k' r
         end
  end.
Proof. reflexivity. Qed.

(** The scanner only deletes. *)
Lemma sub_go_incl c s : forall k, In c (sub_go k s) -> In c s.
Proof.
  induction s as [|x s IH]; intros k H; [assumption|].
  rewrite sub_go_cons in H.
  destruct k as [|k].
  - destruct (match_len (x :: s)).
    + destruct H as [->|H]; [now left|right; eauto].
    + right; eauto.
  - right; eauto.
Qed.

Lemma match_len_no_ticks s : is_ticks s = false -> match_len s = 0.
Proof. unfold match_len. now intros ->. Qed.

Lemma match_len_le s : match_len s <= length s.
Proof.
  unfold match_len.
  destruct s as [|a [|b [|c r]]]; simpl; try lia.
  destruct (N.eqb a backtick && N.eqb b backtick && N.eqb c backtick);
    [|lia].
  destruct r as [|j [|s' [|o [|n r]]]]; simpl; try lia.
  destruct (ci_match 106 j && ci_match 115 s' && ci_match 111 o
            && ci_match 110 n); lia.
Qed.

Lemma is_ticks_head c r : N.eqb c backtick = false -> is_ticks (c :: r) = false.
Proof. intro H. destruct r as [|b [|d r]]; simpl; now rewrite ?H. Qed.

(** A blank text has no fence. *)
Lemma sub_blank s : Forall (fun c => Str.isspace c = true) s -> sub s = s.
Proof.
  unfold sub. induction 1 as [|c r Hc _ IH]; [reflexivity|].
  rewrite sub_go_cons, match_len_no_ticks, IH; [reflexivity|].
  apply is_ticks_head.
  destruct (N.eqb_spec c backtick) as [->|]; [discriminate|reflexivity].
Qed.

(** An opening brace ends every attempt to match the pattern, as the end
    of the text does. *)
Lemma is_ticks_app_brace x r : is_ticks (x ++ open_brace :: r) = is_ticks x.
Proof.
  destruct x as [|a [|b [|c x]]].
  - apply is_ticks_head. reflexivity.
  - destruct r; simpl; now rewrite ?andb_false_r.
  - simpl. now rewrite andb_false_r.
  - reflexivity.
Qed.

Lemma is_json_app_brace x r : is_json (x ++ open_brace :: r) = is_json x.
Proof.
  destruct x as [|a [|b [|c [|d x]]]].
  - destruct r as [|? [|? [|? ?]]]; reflexivity.
  - destruct r as [|? [|? ?]]; simpl; now rewrite ?andb_false_r.
  - destruct r as [|? ?]; simpl; now rewrite ?andb_false_r.
  - simpl. now rewrite ?andb_false_r.
  - reflexivity.
Qed.

Lemma match_len_app_brace x r :
  match_len (x ++ open_brace :: r) = match_len x.
Proof.
  unfold match_len. rewrite is_ticks_app_brace.
  destruct (is_ticks x) eqn:E; [|reflexivity].
  destruct x as [|a [|b [|c x]]]; try discriminate.
  simpl. now rewrite is_json_app_brace.
Qed.

Lemma sub_go_app_brace x r :
  forall k, k <= length x ->
    sub_go k (x ++ open_brace :: r) = sub_go k x ++ sub_go 0 (open_brace :: r).
Proof.
  induction x as [|c x IH]; intros k Hk.
  - simpl in Hk. assert (k = 0) by lia. subst k. reflexivity.
  - change ((c :: x) ++ open_brace :: r) with (c :: (x ++ open_brace :: r)).
    rewrite !sub_go_cons.
    destruct k as [|k].
    + change (c :: (x ++ open_brace :: r)) with ((c :: x) ++ open_brace :: r).
      rewrite match_len_app_brace.
      pose proof (match_len_le (c :: x)) as Hle.
      destruct (match_len (c :: x)) as [|n].
      * simpl. f_equal. apply IH. lia.
      * apply IH. simpl in Hle. lia.
    + apply IH. simpl in Hk. lia.
Qed.

(** Three backticks cannot begin at or before a closing brace. *)
Lemma is_ticks_app_close m y :
  is_ticks ((m ++ [close_brace]) ++ y) = is_ticks (m ++ [close_brace]).
Proof.
  destruct m as [|a [|b [|c m]]].
  - simpl app. now rewrite !is_ticks_head.
  - destruct y; simpl; now rewrite ?andb_false_r.
  - reflexivity.
  - reflexivity.
Qed.

Lemma sub_go_keep m y :
  contains (m ++ [close_brace]) = false ->
  sub_go 0 ((m ++ [close_brace]) ++ y) = (m ++ [close_brace]) ++ sub_go 0 y.
Proof.
  induction m as [|c m IH]; intro H.
  - simpl app. rewrite sub_go_cons, match_len_no_ticks; [reflexivity|].
    apply is_ticks_head. reflexivity.
  - change (((c :: m) ++ [close_brace]) ++ y)
      with (c :: ((m ++ [close_brace]) ++ y)).
    rewrite sub_go_cons.
    change (c :: ((m ++ [close_brace]) ++ y))
      with (((c :: m) ++ [close_brace]) ++ y).
    simpl in H. apply orb_false_iff in H. destruct H as [Ht Hc].
    rewrite match_len_no_ticks.
    + simpl. f_equal. now apply IH.
    + rewrite is_ticks_app_close. exact Ht.
Qed.

(** Around an object that holds no fence and is delimited by braces, the
    scanner works on the two sides independently. *)
Lemma sub_around pre m post :
  contains (open_brace :: m ++ [close_brace]) = false ->
  sub (pre ++ (open_brace :: m ++ [close_brace]) ++ post)
  = sub pre ++ (open_brace :: m ++ [close_brace]) ++ sub post.
Proof.
  intro H. unfold sub.
  change (pre ++ (open_brace :: m ++ [close_brace]) ++ post)
    with (pre ++ open_brace :: ((m ++ [close_brace]) ++ post)).
  rewrite sub_go_app_brace by lia. f_equal.
  change (open_brace :: ((m ++ [close_brace]) ++ post))
    with (((open_brace :: m) ++ [close_brace]) ++ post).
  now rewrite sub_go_keep.
Qed.

End FenceFacts.

(** ** The JSON decoder *)

Module JsonFacts.
Import Json.

Lemma skip_ws_le s : length (skip_ws s) <= length s.
Proof.
  induction s as [|c r IH]; simpl; [lia|].
  destruct (is_ws c); simpl; lia.
Qed.

Lemma skip_ws_keep c r : is_ws c = false -> skip_ws (c :: r) = c :: r.
Proof. simpl. now intros ->. Qed.

Lemma scanstring_go_eq acc s :
  scanstring_go acc s =
  match s with
  | [] => Err unterminated
  | c :: r =>
      if (c =? 34)%N then Ok (rev acc, r)
      else if (c =? 92)%N then
        match r with
        | [] => Err unterminated
        | e :: r1 =>
            if negb (e =? 117)%N then
              match simple_escape e with
              | Some x => scanstring_go (x :: acc) r1
              | None => Err (JSONDecodeError (py "Invalid \escape"))
              end
            else
              match r1 with
              | h1 :: h2 :: h3 :: h4 :: ((_ :: _) as r2) =>
                  match hex4 h1 h2 h3 h4 with
                  | None => Err bad_uescape
                  | Some u =>
                      match r2 with
                      | b :: u' :: g1 :: g2 :: g3 :: g4 :: ((_ :: _) as r3) =>
                          if is_high_surrogate u && (b =? 92)%N && (u' =? 117)%N
                          then
                            match hex4 g1 g2 g3 g4 with
                            | None => Err bad_uescape
                            | Some u2 =>
                                if is_low_surrogate u2
                                then scanstring_go (join_surrogates u u2 :: acc) r3
                                else scanstring_go (u :: acc) r2
                            end
                          else scanstring_go (u :: acc) r2
                      | _ => scanstring_go (u :: acc) r2
                      end
                  end
              | _ => Err bad_uescape
              end
        end
      else if (c <=? 31)%N then
        Err (JSONDecodeError (py "Invalid control character at"))
      else scanstring_go (c :: acc) r
  end.
Proof. destruct s; reflexivity. Qed.

(** [scanstring] consumes at least the closing quote, and fails only
    with a [JSONDecodeError]. *)
Lemma scanstring_go_spec n :
  forall s acc, length s <= n ->
    match scanstring_go acc s with
    | Ok (_, rest) => length rest < length s
    | Err e => exists m, e = JSONDecodeError m
    end.
Proof.
  induction n as [|n IH]; intros s acc Hn; rewrite scanstring_go_eq.
  - destruct s; [|simpl in Hn; lia]. unfold unterminated. eauto.
  - unfold unterminated, bad_uescape.
    repeat match goal with
    | |- match (match ?x with _ => _ end) with _ => _ end =>
        destruct x eqn:?; subst
    | |- match (if ?b then _ else _) with _ => _ end =>
        destruct b eqn:?
    | |- exists m, JSONDecodeError _ = JSONDecodeError m => eexists; reflexivity
    | |- length ?r < length (_ :: ?r) => simpl; lia
    | |- match scanstring_go ?a ?r with _ => _ end =>
        let H := fresh "H" in
        assert (H : length r <= n) by (simpl in Hn |- *; lia);
        specialize (IH r a H);
        destruct (scanstring_go a r) as [[? ?]|?];
        [simpl in IH |- *; lia | exact IH]
    end.
Qed.

Lemma scanstring_shrinks s v rest :
  scanstring s = Ok (v, rest) -> length rest < length s.
Proof.
  unfold scanstring. intro H.
  pose proof (@scanstring_go_spec (length s) s [] (le_n _)) as S.
  now rewrite H in S.
Qed.

Lemma scanstring_err s e :
  scanstring s = Err e -> exists m, e = JSONDecodeError m.
Proof.
  unfold scanstring. intro H.
  pose proof (@scanstring_go_spec (length s) s [] (le_n _)) as S.
  now rewrite H in S.
Qed.

Lemma span_digits_le s : length (snd (span_digits s)) <= length s.
Proof.
  induction s as [|c r IH]; simpl; [lia|].
  destruct (is_digit c); [|simpl; lia].
  destruct (span_digits r); simpl in *; lia.
Qed.

Lemma match_integer_shrinks s ip rest :
  match_integer s = Some (ip, rest) -> length rest < length s.
Proof.
  unfold match_integer. destruct s as [|c r]; [discriminate|].
  destruct (c =? 48)%N.
  - intros [= <- <-]. simpl; lia.
  - destruct (is_digit c); [|discriminate].
    pose proof (span_digits_le r) as Hr.
    destruct (span_digits r). intros [= <- <-]. simpl in *; lia.
Qed.

Lemma match_frac_le s : length (snd (match_frac s)) <= length s.
Proof.
  unfold match_frac. destruct s as [|c [|d r]]; simpl; try lia.
  destruct ((c =? 46)%N && is_digit d); [|simpl; lia].
  pose proof (span_digits_le (d :: r)) as H. simpl in H. lia.
Qed.

Lemma match_exp_le s : length (snd (match_exp s)) <= length s.
Proof.
  unfold match_exp. destruct s as [|c r]; simpl; [lia|].
  destruct ((c =? 101)%N || (c =? 69)%N); [|simpl; lia].
  assert (H : forall neg r1, length r1 <= length r ->
            length (snd (let '(ds, rest) := span_digits r1 in
                         match ds with
                         | [] => (@None (bool * pystr), c :: r)
                         | _ :: _ => (Some (neg, ds), rest)
                         end)) <= S (length r)).
  { intros neg r1 Hr1. pose proof (span_digits_le r1) as Hs.
    destruct (span_digits r1) as [[|? ?] ?]; simpl in *; lia. }
  destruct r as [|sg [|x r']].
  - apply H; lia.
  - apply H; lia.
  - destruct (sg =? 45)%N; [apply H; simpl; lia|].
    destruct (sg =? 43)%N; apply H; simpl; lia.
Qed.

(** A number consumes at least one character; the only failure is the
    scanner's [StopIteration]. *)
Lemma match_number_spec s :
  match match_number s with
  | Ok (_, rest) => length rest < length s
  | Err e => e = StopIteration
  end.
Proof.
  unfold match_number.
  set (p := match s with
            | [] => (false, s)
            | c :: r => if (c =? 45)%N then (true, r) else (false, s)
            end).
  assert (Hp : length (snd p) <= length s).
  { subst p. destruct s as [|c r]; simpl; [lia|].
    destruct (c =? 45)%N; simpl; lia. }
  destruct p as [neg s1]. simpl in Hp.
  destruct (match_integer s1) as [[ip s2]|] eqn:Ei; [|reflexivity].
  apply match_integer_shrinks in Ei.
  pose proof (match_frac_le s2) as Hf.
  destruct (match_frac s2) as [fp s3]. simpl in Hf.
  pose proof (match_exp_le s3) as He.
  destruct (match_exp s3) as [ex s4]. simpl in He.
  destruct fp, ex; simpl; lia.
Qed.

Lemma scan_post_mono (Q Q' : pyobj -> Prop) f need need' s s' r :
  scan_post Q' f need' s' r ->
  length s' <= length s ->
  (need <= S f -> need' <= f) ->
  (forall v, Q' v -> Q v) ->
  scan_post Q (S f) need s r.
Proof.
  unfold scan_post. destruct r as [[v rest]|e]; intros [H1 H2] Hs Hn HQ.
  - split; [lia|auto].
  - split; auto.
Qed.

Lemma scanner_spec f :
  (forall s, scan_post (braced s) f (2 * length s + 1) s (scan_once f s))
  /\ (forall d s, scan_post (fun v => is_dict v = true) f (2 * length s + 2) s
                    (object_loop f d s))
  /\ (forall l s, scan_post (fun _ => True) f (2 * length s + 2) s
                    (array_loop f l s)).
Proof.
  induction f as [|f (IHs & IHo & IHa)].
  - repeat split; simpl; auto; lia.
  - split; [|split].
    + intros s. cbn [scan_once object_loop array_loop].
      destruct s as [|c r]; [scan_fail|].
      assert (Hb : c <> open_brace -> forall v, braced (c :: r) v).
      { intros Hc v [= E]. contradiction. }
      destruct (N.eqb_spec c 34) as [->|_].
      { destruct (scanstring r) as [[k rest]|e] eqn:E; cbn [bind].
        - apply scanstring_shrinks in E.
          split; [simpl; lia | apply Hb; discriminate].
        - apply scanstring_err in E as [m ->]. scan_fail. }
      destruct (N.eqb_spec c 123) as [->|Hc].
      { pose proof (skip_ws_le r) as Hr.
        destruct (skip_ws r) as [|c' r'].
        - eapply scan_post_mono;
            [apply (IHo [] [])|simpl; lia..|intros v Hv _; exact Hv].
        - destruct (c' =? 125)%N.
          + split; [simpl in *; lia | intros _; reflexivity].
          + eapply scan_post_mono;
              [apply (IHo [] (c' :: r'))|simpl in *; lia..
              |intros v Hv _; exact Hv]. }
      specialize (Hb Hc).
      destruct (N.eqb_spec c 91) as [->|_].
      { pose proof (skip_ws_le r) as Hr.
        destruct (skip_ws r) as [|c' r'].
        - eapply scan_post_mono;
            [apply (IHa [] [])|simpl; lia..|intros v _; apply Hb].
        - destruct (c' =? 93)%N.
          + split; [simpl in *; lia | apply Hb].
          + eapply scan_post_mono;
              [apply (IHa [] (c' :: r'))|simpl in *; lia..
              |intros v _; apply Hb]. }
      repeat match goal with
      | |- scan_post _ _ _ _ (if ?b then _ else _) =>
          destruct b; [split; [rewrite length_skipn; simpl; lia | apply Hb]|]
      end.
      pose proof (match_number_spec (c :: r)) as Hn.
      destruct (match_number (c :: r)) as [[v rest]|e].
      * split; [exact Hn | apply Hb].
      * subst e. scan_fail.
    + intros d s. cbn [scan_once object_loop array_loop].
      destruct s as [|c r]; [scan_fail|].
      destruct (c =? 34)%N; [|scan_fail].
      destruct (scanstring r) as [[key r1]|e] eqn:E; cbn [bind];
        [|apply scanstring_err in E as [m ->]; scan_fail].
      apply scanstring_shrinks in E.
      pose proof (skip_ws_le r1) as H1.
      destruct (skip_ws r1) as [|c1 r2]; [scan_fail|].
      destruct (c1 =? 58)%N; [|scan_fail].
      pose proof (IHs (skip_ws r2)) as Hs.
      pose proof (skip_ws_le r2) as H2.
      destruct (scan_once f (skip_ws r2)) as [[val r3]|e]; cbn [bind].
      * destruct Hs as [Hlen _].
        pose proof (skip_ws_le r3) as H3.
        destruct (skip_ws r3) as [|c2 r4]; [scan_fail|].
        destruct (c2 =? 125)%N; [split; [simpl in *; lia | reflexivity]|].
        destruct (c2 =? 44)%N; [|scan_fail].
        pose proof (skip_ws_le r4) as H4.
        eapply scan_post_mono; [apply IHo|simpl in *; lia..|auto].
      * destruct Hs as [Hexn Hfuel].
        split; [assumption | intro; apply Hfuel; simpl in *; lia].
    + intros l s. cbn [scan_once object_loop array_loop].
      pose proof (IHs s) as Hs.
      destruct (scan_once f s) as [[val r1]|e]; cbn [bind].
      * destruct Hs as [Hlen _].
        pose proof (skip_ws_le r1) as H1.
        destruct (skip_ws r1) as [|c r2]; [scan_fail|].
        destruct (c =? 93)%N; [split; [simpl in *; lia | exact I]|].
        destruct (c =? 44)%N; [|scan_fail].
        pose proof (skip_ws_le r2) as H2.
        eapply scan_post_mono; [apply IHa|simpl in *; lia..|auto].
      * destruct Hs as [Hexn Hfuel].
        split; [assumption | intro; apply Hfuel; simpl in *; lia].
Qed.

(** [raw_decode] gives the scanner all the fuel it can use: its only
    failure is a [JSONDecodeError]. *)
Lemma raw_decode_spec s :
  match raw_decode s with
  | Ok (v, rest) => length rest < length s /\ braced s v
  | Err e => exists m, e = JSONDecodeError m
  end.
Proof.
  unfold raw_decode.
  destruct (scanner_spec (2 * length s + 1)) as (Hs & _ & _).
  specialize (Hs s). unfold scan_post in Hs.
  destruct (scan_once (2 * length s + 1) s) as [[v rest]|e]; [exact Hs|].
  destruct Hs as [Hexn Hfuel]. specialize (Hfuel (le_n _)).
  destruct e; simpl in Hexn; try contradiction; eauto.
Qed.

(** [json.loads] never fails otherwise than with a [JSONDecodeError]. *)
Lemma loads_err s e :
  loads s = Err e -> exists m, e = JSONDecodeError m.
Proof.
  unfold loads, decode.
  destruct (Str.startswith [65279%N] s); [intros [= <-]; eauto|].
  pose proof (raw_decode_spec (skip_ws s)) as H.
  destruct (raw_decode (skip_ws s)) as [[v rest]|e']; cbn [bind].
  - destruct (skip_ws rest); [discriminate|intros [= <-]; eauto].
  - intros [= <-]. exact H.
Qed.

(** A document that begins with an opening brace decodes to a [dict]. *)
Lemma loads_braced r v :
  loads (open_brace :: r) = Ok v -> is_dict v = true.
Proof.
  unfold loads, decode.
  change (Str.startswith [65279%N] (open_brace :: r)) with false.
  cbv iota. rewrite skip_ws_keep by reflexivity.
  pose proof (raw_decode_spec (open_brace :: r)) as H.
  destruct (raw_decode (open_brace :: r)) as [[v' rest]|e]; cbn [bind];
    [|discriminate].
  destruct H as [_ Hb].
  destruct (skip_ws rest); [|discriminate].
  intros [= <-]. now apply Hb.
Qed.

Lemma loads_nil : loads [] = Err (JSONDecodeError (py "Expecting value")).
Proof. reflexivity. Qed.

End JsonFacts.

(** ** [extract_json_from_text] *)

Module ExtractFacts.
Import Str StrFacts FenceFacts JsonFacts.

(** The function on a [str] that is not blank. *)
Lemma extract_not_blank s :
  strip s <> [] ->
  extract_json_from_text (PyStr s) =
  let t := strip (Fence.sub s) in
  if (find open_brace t =? -1)%Z || (rfind close_brace t =? -1)%Z
  then Err no_json
  else Json.loads (slice t (find open_brace t) (rfind close_brace t + 1)).
Proof.
  intro H. unfold extract_json_from_text.
  destruct s as [|c r]; [now destruct H|].
  cbn [Obj.truthy negb].
  destruct (strip (c :: r)); [now destruct H|reflexivity].
Qed.

Lemma extract_blank s :
  blank s -> extract_json_from_text (PyStr s) = Err empty_response.
Proof.
  intro H. unfold extract_json_from_text.
  destruct s as [|c r]; [reflexivity|].
  cbn [Obj.truthy negb].
  apply strip_nil_iff in H. now rewrite H.
Qed.

(** The text handed to [json.loads] runs from the first opening brace to
    the last closing brace of the stripped text. *)
Lemma extract_segment s a m b :
  strip (Fence.sub s) = a ++ (open_brace :: m ++ [close_brace]) ++ b ->
  ~ In open_brace a ->
  ~ In close_brace b ->
  extract_json_from_text (PyStr s) = Json.loads (open_brace :: m ++ [close_brace]).
Proof.
  intros Ht Ha Hb.
  assert (Hs : strip s <> []).
  { intro E. apply strip_nil_iff in E.
    pose proof (@sub_blank s E) as Hsub. rewrite Hsub in Ht.
    apply strip_nil_iff in E. rewrite E in Ht.
    destruct a; discriminate. }
  rewrite (@extract_not_blank s Hs). cbv zeta. rewrite Ht.
  assert (Hf : find open_brace (a ++ (open_brace :: m ++ [close_brace]) ++ b)
               = Z.of_nat (length a)).
  { simpl. now apply find_first. }
  assert (Hr : rfind close_brace (a ++ (open_brace :: m ++ [close_brace]) ++ b)
               = Z.of_nat (length (a ++ open_brace :: m))).
  { replace (a ++ (open_brace :: m ++ [close_brace]) ++ b)
      with ((a ++ open_brace :: m) ++ close_brace :: b)
      by (repeat (rewrite <- app_assoc; simpl); reflexivity).
    now apply rfind_last. }
  rewrite Hf, Hr.
  destruct (Z.eqb_spec (Z.of_nat (length a)) (-1)); [lia|].
  destruct (Z.eqb_spec (Z.of_nat (length (a ++ open_brace :: m))) (-1)); [lia|].
  cbn [orb].
  replace (Z.of_nat (length (a ++ open_brace :: m)) + 1)%Z
    with (Z.of_nat (length a)
          + Z.of_nat (length (open_brace :: m ++ [close_brace])))%Z.
  - now rewrite slice_segment.
  - simpl length. rewrite !length_app. simpl length. lia.
Qed.

(** Whatever the function returns is a [dict]. *)
Lemma extract_returns_dict text v :
  extract_json_from_text text = Ok v -> is_dict v = true.
Proof.
  unfold extract_json_from_text.
  destruct (Obj.truthy text); cbn [negb]; [|discriminate].
  destruct text as [| | | |s| |]; try discriminate.
  destruct (Obj.truthy (PyStr (strip s))); cbn [negb]; [|discriminate].
  set (t := strip (Fence.sub s)).
  destruct (Z.eqb_spec (find open_brace t) (-1)) as [|Hf];
    cbn [orb]; [discriminate|].
  destruct (rfind close_brace t =? -1)%Z; [discriminate|].
  destruct (slice_from_find open_brace t (rfind close_brace t + 1) Hf)
    as [E|[r E]]; rewrite E.
  - rewrite loads_nil. discriminate.
  - apply loads_braced.
Qed.

(** Its failures: the two [ValueError]s of its own, [AttributeError] for
    an object without [strip], and [json.loads]'s. *)
Lemma extract_err text e :
  extract_json_from_text text = Err e ->
  e = empty_response \/ e = no_json \/ e = AttributeError
  \/ exists m, e = JSONDecodeError m.
Proof.
  unfold extract_json_from_text.
  destruct (Obj.truthy text); cbn [negb]; [|intros [= <-]; auto].
  destruct text as [| | | |s| |]; try (intros [= <-]; auto).
  destruct (Obj.truthy (PyStr (strip s))); cbn [negb];
    [|intros [= <-]; auto].
  match goal with |- (if ?b then _ else _) = _ -> _ => destruct b end;
    [intros [= <-]; auto|].
  intro H. apply loads_err in H. auto.
Qed.

End ExtractFacts.

(** ** The endpoint client and the orchestrator *)

Lemma first_choice_content_err resp e :
  first_choice_content resp = Err e ->
  (exists m, e = JSONDecodeError m) \/ e = KeyError \/ e = TypeError
  \/ e = IndexError \/ e = AttributeError.
Proof.
  unfold first_choice_content.
  destruct (Json.loads (text resp)) as [body|e0] eqn:E; cbn [bind].
  - destruct (Obj.getitem_str body (py "choices")) as [c|e1] eqn:E1; cbn [bind].
    + destruct (Obj.getitem_0 c) as [c0|e2] eqn:E2; cbn [bind].
      * destruct (Obj.getitem_str c0 (py "message")) as [m|e3] eqn:E3;
          cbn [bind].
        -- unfold Obj.get. destruct m; try (intros [= <-]; tauto).
           destruct (Obj.lookup d (py "content")); discriminate.
        -- intros [= <-]. unfold Obj.getitem_str in E3.
           destruct c0; try (injection E3 as <-; tauto).
           destruct (Obj.lookup d (py "message")); [discriminate|].
           injection E3 as <-; tauto.
      * intros [= <-]. unfold Obj.getitem_0 in E2.
        destruct c as [| | | |[|? ?]|[|? ?]|]; try discriminate;
          injection E2 as <-; tauto.
    + intros [= <-]. unfold Obj.getitem_str in E1.
      destruct body; try (injection E1 as <-; tauto).
      destruct (Obj.lookup d (py "choices")); [discriminate|].
      injection E1 as <-; tauto.
  - intros [= <-]. left. now apply JsonFacts.loads_err in E.
Qed.

Section AnalysisFacts.

Variable api_key : pystr.
Variable upstream : nat -> Request -> post_outcome.

#[local] Abbreviation call := (call_ai api_key upstream).
#[local] Abbreviation request := (chat_request api_key).
#[local] Abbreviation analyze := (analyze_with_ai api_key upstream).

(** Every call sends exactly one request, whatever its outcome. *)
Lemma call_ai_log msgs l : snd (call msgs l) = l ++ [request msgs].
Proof.
  unfold call_ai.
  destruct (upstream (length l) (request msgs)) as [why|resp]; [reflexivity|].
  destruct (negb (status_code resp =? 200)%Z); reflexivity.
Qed.

(** An attempt that calls the model once and parses the answer. *)
Lemma attempt1_eq p l :
  attempt1 api_key upstream p l =
  (match fst (call p l) with
   | Ok raw => extract_json_from_text raw
   | Err e => Err e
   end, l ++ [request p]).
Proof.
  unfold attempt1, mbind, lift.
  pose proof (call_ai_log p l) as E.
  destruct (call p l) as [r l1]. simpl in E. subst l1.
  now destruct r.
Qed.

Lemma attempt3_eq p l :
  attempt3 api_key upstream p l = attempt1 api_key upstream p l.
Proof. reflexivity. Qed.

(** The repair attempt: one request when the first call fails, two
    otherwise. *)
Lemma attempt2_eq p l :
  attempt2 api_key upstream p l =
  match fst (call p l) with
  | Ok raw =>
      (match fst (call (repair_prompt raw) (l ++ [request p])) with
       | Ok fixed => extract_json_from_text fixed
       | Err e => Err e
       end, l ++ [request p; request (repair_prompt raw)])
  | Err e => (Err e, l ++ [request p])
  end.
Proof.
  unfold attempt2, mbind, lift.
  pose proof (call_ai_log p l) as E.
  destruct (call p l) as [r l1]. simpl in E. subst l1.
  destruct r as [raw|e]; [|reflexivity]. cbn [fst].
  pose proof (call_ai_log (repair_prompt raw) (l ++ [request p])) as E.
  destruct (call (repair_prompt raw) (l ++ [request p])) as [r l2].
  simpl in E. subst l2. rewrite <- app_assoc.
  now destruct r.
Qed.

End AnalysisFacts.

Lemma notin_by_eqb (c : N) (l : pystr) :
  existsb (N.eqb c) l = false -> ~ In c l.
Proof.
  intros H Hin.
  assert (E : existsb (N.eqb c) l = true).
  { apply existsb_exists. exists c. split; [assumption|apply N.eqb_refl]. }
  congruence.
Qed.

Lemma slice_prefix_Z (s : pystr) (k : Z) :
  (0 <= k)%Z -> Str.slice s 0 k = firstn (Z.to_nat k) s.
Proof.
  intro H. rewrite <- (Z2Nat.id k) at 1 by assumption.
  apply StrFacts.slice_prefix.
Qed.

(** * Specification properties *)

(** C1.  When every call of the model returns a text that
    [extract_json_from_text] rejects, [analyze_with_ai] raises after exactly
    four requests: one for attempt 1, two for attempt 2 (the original prompt,
    then the repair prompt around the raw answer), one for attempt 3.  No
    value is returned, and the exception that reaches the caller is the one
    attempt 3 raised on the answer to the fourth request. *)
Theorem analyze_all_attempts_fail
    (api_key : pystr) (upstream : nat -> Request -> post_outcome)
    (doc q : pystr) (l : log) :
  (forall msgs l', exists t,
      fst (call_ai api_key upstream msgs l') = Ok (PyStr t)
      /\ is_ok (extract_json_from_text (PyStr t)) = false) ->
  let p := prompt doc q in
  let req := chat_request api_key in
  exists raw t e,
    let sent := l ++ [req p; req p; req (repair_prompt raw)] in
    analyze_with_ai api_key upstream doc q l = (Err e, sent ++ [req p])
    /\ fst (call_ai api_key upstream p (l ++ [req p])) = Ok raw
    /\ fst (call_ai api_key upstream p sent) = Ok (PyStr t)
    /\ extract_json_from_text (PyStr t) = Err e
    /\ attempt3 api_key upstream p sent = (Err e, sent ++ [req p])
    /\ length (sent ++ [req p]) = length l + 4.
Proof.
  intros H p req. subst req.
  set (req := chat_request api_key) in *.
  destruct (H p l) as (t1 & C1 & F1).
  destruct (H p (l ++ [req p])) as (t2 & C2 & _).
  destruct (H (repair_prompt (PyStr t2)) ((l ++ [req p]) ++ [req p]))
    as (t3 & C3 & F3).
  set (sent := l ++ [req p; req p; req (repair_prompt (PyStr t2))]).
  destruct (H p sent) as (t4 & C4 & F4).
  destruct (extract_json_from_text (PyStr t4)) as [?|e] eqn:E4;
    [discriminate|].
  assert (A3 : attempt3 api_key upstream p sent = (Err e, sent ++ [req p])).
  { rewrite attempt3_eq, attempt1_eq, C4, E4. reflexivity. }
  exists (PyStr t2), t4, e. cbv zeta. fold sent.
  repeat split; try assumption.
  - unfold analyze_with_ai, try_or. fold p.
    rewrite attempt1_eq, C1.
    destruct (extract_json_from_text (PyStr t1)); [discriminate|].
    rewrite attempt2_eq. fold req. rewrite C2, C3.
    destruct (extract_json_from_text (PyStr t3)); [discriminate|].
    replace ((l ++ [req p]) ++ [req p; req (repair_prompt (PyStr t2))])
      with sent by (unfold sent; now rewrite <- app_assoc).
    exact A3.
  - unfold sent. rewrite !length_app. simpl. lia.
Qed.

(** C2.  When attempt 1 fails and the repair attempt succeeds,
    [analyze_with_ai] sends exactly three requests: the analysis prompt, the
    analysis prompt again, and a two-message repair prompt whose system
    message is the instruction to fix and return only valid JSON and whose
    user message is the raw, unparsed answer to the second request.  It
    returns what [extract_json_from_text] makes of the answer to the repair
    request. *)
Theorem analyze_repair_succeeds
    (api_key : pystr) (upstream : nat -> Request -> post_outcome)
    (doc q : pystr) (l : log) (raw fixed v : pyobj) :
  let p := prompt doc q in
  let req := chat_request api_key in
  is_ok (fst (attempt1 api_key upstream p l)) = false ->
  fst (call_ai api_key upstream p (l ++ [req p])) = Ok raw ->
  fst (call_ai api_key upstream (repair_prompt raw) (l ++ [req p; req p]))
    = Ok fixed ->
  extract_json_from_text fixed = Ok v ->
  analyze_with_ai api_key upstream doc q l
    = (Ok v, l ++ [req p; req p; req (repair_prompt raw)])
  /\ repair_prompt raw
     = [ {| role := py "system";
            content := PyStr (py "Fix and return ONLY valid JSON.") |};
         {| role := py "user"; content := raw |} ].
Proof.
  intros p req H1 H2 H3 H4. split; [|reflexivity].
  subst req. set (req := chat_request api_key) in *.
  unfold analyze_with_ai, try_or. fold p.
  rewrite attempt1_eq in H1 |- *. cbn [fst] in H1.
  destruct (match fst (call_ai api_key upstream p l) with
            | Ok raw0 => extract_json_from_text raw0
            | Err e => Err e
            end); [discriminate|].
  rewrite attempt2_eq. fold req. rewrite H2.
  replace ((l ++ [req p]) ++ [req p]) with (l ++ [req p; req p])
    by now rewrite <- app_assoc.
  rewrite H3, H4. now rewrite <- app_assoc.
Qed.

(** C7.  When the answer to the first request is accepted by
    [extract_json_from_text], [analyze_with_ai] returns that value at once:
    one request has been sent, and neither repair nor retry happens. *)
Theorem analyze_first_attempt_succeeds
    (api_key : pystr) (upstream : nat -> Request -> post_outcome)
    (doc q : pystr) (l : log) (raw v : pyobj) :
  fst (call_ai api_key upstream (prompt doc q) l) = Ok raw ->
  extract_json_from_text raw = Ok v ->
  analyze_with_ai api_key upstream doc q l
    = (Ok v, l ++ [chat_request api_key (prompt doc q)]).
Proof.
  intros H1 H2. unfold analyze_with_ai, try_or.
  now rewrite attempt1_eq, H1, H2.
Qed.

(** C3, as amended.  A value returned by [analyze_with_ai] is the [dict]
    that [extract_json_from_text] parsed from the answer to the last request
    sent, unchanged: nothing is added, removed or filled in.  The presence
    of the four fields is not examined. *)
Theorem analyze_returns_parsed_object
    (api_key : pystr) (upstream : nat -> Request -> post_outcome)
    (doc q : pystr) (l l' : log) (v : pyobj) :
  analyze_with_ai api_key upstream doc q l = (Ok v, l') ->
  is_dict v = true
  /\ exists l0 msgs raw,
       l' = l0 ++ [chat_request api_key msgs]
       /\ fst (call_ai api_key upstream msgs l0) = Ok raw
       /\ extract_json_from_text raw = Ok v.
Proof.
  set (p := prompt doc q). set (req := chat_request api_key).
  assert (One : forall l1 l2,
             attempt1 api_key upstream p l1 = (Ok v, l2) ->
             exists l0 msgs raw,
               l2 = l0 ++ [req msgs]
               /\ fst (call_ai api_key upstream msgs l0) = Ok raw
               /\ extract_json_from_text raw = Ok v).
  { intros l1 l2. rewrite attempt1_eq.
    destruct (fst (call_ai api_key upstream p l1)) as [raw|e] eqn:E;
      [|discriminate].
    intros [= Hv <-]. exists l1, p, raw. auto. }
  intro H.
  assert (Hex : exists l0 msgs raw,
             l' = l0 ++ [req msgs]
             /\ fst (call_ai api_key upstream msgs l0) = Ok raw
             /\ extract_json_from_text raw = Ok v).
  { unfold analyze_with_ai, try_or in H. fold p in H.
    destruct (attempt1 api_key upstream p l) as [[v1|e1] l1] eqn:A1.
    - injection H as -> ->. eapply One, A1.
    - pose proof A1 as A1'. rewrite attempt1_eq in A1'.
      injection A1' as _ <-.
      rewrite attempt2_eq in H. fold req in H.
      destruct (fst (call_ai api_key upstream p (l ++ [req p])))
        as [raw|e2] eqn:E2.
      + destruct (fst (call_ai api_key upstream (repair_prompt raw)
                         ((l ++ [req p]) ++ [req p]))) as [fixed|e3] eqn:E3.
        * destruct (extract_json_from_text fixed) as [v2|e4] eqn:E4.
          -- injection H as -> <-.
             exists ((l ++ [req p]) ++ [req p]), (repair_prompt raw), fixed.
             repeat split; auto.
             now rewrite <- (app_assoc _ [req p] [req (repair_prompt raw)]).
          -- eapply One, H.
        * eapply One, H.
      + eapply One, H. }
  split; [|exact Hex].
  destruct Hex as (_ & _ & raw & _ & _ & E).
  eapply ExtractFacts.extract_returns_dict, E.
Qed.

(** C4, as amended.  Take a JSON object's text, from its opening brace to
    its closing brace, that holds no run of three backticks.  Put before it
    any prose or fence that has no opening brace, and after it any prose or
    fence that has no closing brace.  Then [extract_json_from_text] returns
    exactly what [json.loads] returns for the object's text alone. *)
Theorem extract_embedded_object (pre m post : pystr) (v : pyobj) :
  let obj := open_brace :: m ++ [close_brace] in
  Json.loads obj = Ok v ->
  Fence.contains obj = false ->
  ~ In open_brace pre ->
  ~ In close_brace post ->
  extract_json_from_text (PyStr (pre ++ obj ++ post)) = Ok v.
Proof.
  intros obj Hv Hf Hpre Hpost. rewrite <- Hv. subst obj.
  apply ExtractFacts.extract_segment
    with (a := Str.lstrip (Fence.sub pre)) (b := Str.rstrip (Fence.sub post)).
  - rewrite FenceFacts.sub_around by assumption.
    apply StrFacts.strip_around; reflexivity.
  - intro H. apply StrFacts.lstrip_incl, FenceFacts.sub_go_incl in H. auto.
  - intro H. apply StrFacts.rstrip_incl, FenceFacts.sub_go_incl in H. auto.
Qed.

(** C5.  The text parsed runs from the first opening brace to the last
    closing brace of the stripped text, with no matching of brackets.  On
    [{"a":1} trailing {not json}] that is the whole input, which
    [json.loads] rejects, although its first object alone is valid. *)
Theorem extract_first_to_last_brace :
  (forall s a m b,
      Str.strip (Fence.sub s) = a ++ (open_brace :: m ++ [close_brace]) ++ b ->
      ~ In open_brace a ->
      ~ In close_brace b ->
      extract_json_from_text (PyStr s)
      = Json.loads (open_brace :: m ++ [close_brace]))
  /\ (let s := pyq "{'a':1} trailing {not json}" in
      Str.strip (Fence.sub s) = s
      /\ Str.slice s (Str.find open_brace s) (Str.rfind close_brace s + 1) = s
      /\ extract_json_from_text (PyStr s) = Json.loads s
      /\ extract_json_from_text (PyStr s)
         = Err (JSONDecodeError (py "Extra data"))
      /\ Json.loads (pyq "{'a':1}") = Ok (PyDict [(py "a", PyInt 1)])).
Proof.
  split.
  - intros s a m b. apply ExtractFacts.extract_segment.
  - vm_compute. repeat split; reflexivity.
Qed.

(** C6, as amended.  Given a response, [call_ai] raises [RuntimeError]
    exactly when the status code is not 200, other 2xx codes included; the
    exception carries the response body and not the status.  With status
    200 it returns what the body's first choice holds as message content. *)
Theorem call_ai_status
    (api_key : pystr) (upstream : nat -> Request -> post_outcome)
    (msgs : list ChatMessage) (l : log) (resp : Response) :
  upstream (length l) (chat_request api_key msgs) = Returned resp ->
  ((exists arg, fst (call_ai api_key upstream msgs l) = Err (RuntimeError arg))
   <-> status_code resp <> 200%Z)
  /\ (status_code resp <> 200%Z ->
      fst (call_ai api_key upstream msgs l) = Err (RuntimeError (text resp)))
  /\ (status_code resp = 200%Z ->
      fst (call_ai api_key upstream msgs l) = first_choice_content resp).
Proof.
  intro H. unfold call_ai. rewrite H.
  destruct (Z.eqb_spec (status_code resp) 200) as [E|E]; cbn [negb fst].
  - repeat split; try congruence.
    intros [arg Harg]. apply first_choice_content_err in Harg.
    destruct Harg as [[m Hm]|[Hm|[Hm|[Hm|Hm]]]]; discriminate.
  - repeat split; try congruence. eauto.
Qed.

(** C8.  [extract_json_from_text] raises its empty-response [ValueError]
    exactly for the empty text and for texts of blanks only; so it does for
    the empty string and for three spaces. *)
Theorem extract_empty_response_iff (s : pystr) :
  (extract_json_from_text (PyStr s) = Err empty_response
   <-> s = [] \/ Forall (fun c => Str.isspace c = true) s)
  /\ extract_json_from_text (PyStr (py "")) = Err empty_response
  /\ extract_json_from_text (PyStr (py "   ")) = Err empty_response.
Proof.
  split; [|split; reflexivity].
  split.
  - intro H. right.
    apply StrFacts.strip_nil_iff.
    destruct (Str.strip s) as [|c r] eqn:E; [reflexivity|exfalso].
    assert (Hs : Str.strip s <> []) by congruence.
    rewrite (@ExtractFacts.extract_not_blank s Hs) in H. cbv zeta in H.
    match type of H with
    | (if ?b then _ else _) = _ => destruct b
    end.
    + vm_compute in H. discriminate.
    + apply JsonFacts.loads_err in H. destruct H; discriminate.
  - intros [->|H]; [reflexivity|].
    now apply ExtractFacts.extract_blank.
Qed.

(** C9.  The prompt holds exactly two messages; the user message embeds the
    question as it is and the first 6000 characters of the document, which
    is the whole document when it has at most 6000. *)
Theorem prompt_shape (doc q : pystr) :
  let cut := firstn (Z.to_nat 6000) doc in
  prompt doc q
  = [ {| role := py "system";
         content :=
           PyStr (py "You MUST return ONLY valid JSON. No explanations.") |};
      {| role := py "user";
         content :=
           PyStr (template_head ++ q ++ template_middle ++ cut
                  ++ template_tail) |} ]
  /\ length (prompt doc q) = 2
  /\ ((Z.of_nat (length doc) <= 6000)%Z -> cut = doc)
  /\ ((6000 < Z.of_nat (length doc))%Z ->
      Z.of_nat (length cut) = 6000%Z /\ exists rest, doc = cut ++ rest).
Proof.
  intro cut. unfold prompt. rewrite slice_prefix_Z by lia. fold cut.
  repeat split.
  - intro H. apply firstn_all2. lia.
  - subst cut. rewrite length_firstn. lia.
  - exists (skipn (Z.to_nat 6000) doc). symmetry. apply firstn_skipn.
Qed.

(** C10.  Whatever [extract_json_from_text] returns is a JSON object, a
    [dict]: the text it parses begins with an opening brace. *)
Theorem extract_result_is_object (text : pyobj) (v : pyobj) :
  extract_json_from_text text = Ok v -> exists d, v = PyDict d.
Proof.
  intro H. apply ExtractFacts.extract_returns_dict in H.
  destruct v; try discriminate. eauto.
Qed.

(** * Instances *)

Lemma analyze_all_attempts_fail_witness :
  exists raw t e,
    let p := prompt (py "doc") (py "q") in
    let req := chat_request (py "k") in
    let sent := [req p; req p; req (repair_prompt raw)] in
    analyze_with_ai (py "k") garbage_service (py "doc") (py "q") []
    = (Err e, sent ++ [req p])
    /\ fst (call_ai (py "k") garbage_service p [req p]) = Ok raw
    /\ fst (call_ai (py "k") garbage_service p sent) = Ok (PyStr t)
    /\ extract_json_from_text (PyStr t) = Err e
    /\ attempt3 (py "k") garbage_service p sent = (Err e, sent ++ [req p])
    /\ length (sent ++ [req p]) = 4.
Proof.
  apply (@analyze_all_attempts_fail (py "k") garbage_service (py "doc")
           (py "q") []).
  intros msgs l'. exists (py "garbage").
  unfold call_ai, garbage_service, scripted.
  destruct (length l') as [|n]; [|destruct n]; vm_compute; split; reflexivity.
Defined.

Lemma analyze_repair_succeeds_witness :
  let p := prompt (py "doc") (py "q") in
  let req := chat_request (py "k") in
  let raw := PyStr (py "risk is low") in
  analyze_with_ai (py "k") repairing_service (py "doc") (py "q") []
  = (Ok (PyDict [(py "risk_level", PyStr (py "Low"))]),
     [req p; req p; req (repair_prompt raw)])
  /\ repair_prompt raw
     = [ {| role := py "system";
            content := PyStr (py "Fix and return ONLY valid JSON.") |};
         {| role := py "user"; content := raw |} ].
Proof.
  apply (@analyze_repair_succeeds (py "k") repairing_service (py "doc")
           (py "q") [] (PyStr (py "risk is low"))
           (PyStr (pyq "```json {'risk_level': 'Low'} ```"))).
  - vm_compute. reflexivity.
  - vm_compute. reflexivity.
  - vm_compute. reflexivity.
  - vm_compute. reflexivity.
Defined.

Lemma analyze_first_attempt_succeeds_witness :
  analyze_with_ai (py "k") one_field_service (py "doc") (py "q") []
  = (Ok (PyDict [(py "a", PyInt 1)]),
     [chat_request (py "k") (prompt (py "doc") (py "q"))]).
Proof.
  apply (@analyze_first_attempt_succeeds (py "k") one_field_service (py "doc")
           (py "q") [] (PyStr (pyq "{'a': 1}"))).
  - vm_compute. reflexivity.
  - vm_compute. reflexivity.
Defined.

(** C3 as stated fails: the service answers [{"a": 1}], and
    [analyze_with_ai] returns it although it has none of the four fields. *)
Lemma insight_fields_not_checked :
  fst (analyze_with_ai (py "k") one_field_service (py "doc") (py "q") [])
  = Ok (PyDict [(py "a", PyInt 1)])
  /\ has_insight_fields (PyDict [(py "a", PyInt 1)]) = false.
Proof. vm_compute. split; reflexivity. Qed.

Lemma analyze_returns_parsed_object_witness :
  is_dict (PyDict [(py "risk_level", PyStr (py "Low"))]) = true
  /\ exists l0 msgs raw,
       snd (analyze_with_ai (py "k") repairing_service (py "doc") (py "q") [])
       = l0 ++ [chat_request (py "k") msgs]
       /\ fst (call_ai (py "k") repairing_service msgs l0) = Ok raw
       /\ extract_json_from_text raw
          = Ok (PyDict [(py "risk_level", PyStr (py "Low"))]).
Proof.
  apply (@analyze_returns_parsed_object (py "k") repairing_service (py "doc")
           (py "q") []).
  vm_compute. reflexivity.
Defined.

(** C4 as stated fails in three ways: a closing brace in the prose after
    the object, an opening brace in the prose before it, and a fence inside
    one of the object's strings. *)
Lemma extract_embedded_object_fails :
  Json.loads (pyq "{'a': 1}") = Ok (PyDict [(py "a", PyInt 1)])
  /\ extract_json_from_text
       (PyStr (py "```json " ++ pyq "{'a': 1}" ++ py " ``` (see {notes})"))
     = Err (JSONDecodeError (py "Extra data"))
  /\ extract_json_from_text
       (PyStr (py "For {x} we get: " ++ pyq "{'a': 1}" ++ py ""))
     = Err Json.expecting_name
  /\ Json.loads (pyq "{'code': '```'}")
     = Ok (PyDict [(py "code", PyStr (py "```"))])
  /\ extract_json_from_text (PyStr (py "" ++ pyq "{'code': '```'}" ++ py ""))
     = Ok (PyDict [(py "code", PyStr (py ""))]).
Proof. vm_compute. repeat split; reflexivity. Qed.

Lemma extract_embedded_object_witness :
  extract_json_from_text
    (PyStr (py "Sure! ```JSON " ++ pyq "{'risk_level': 'Low', 'n': [1, 2]}"
            ++ py " ``` Hope this helps."))
  = Ok (PyDict [(py "risk_level", PyStr (py "Low"));
                (py "n", PyList [PyInt 1; PyInt 2])]).
Proof.
  apply (@extract_embedded_object (py "Sure! ```JSON ")
           (pyq "'risk_level': 'Low', 'n': [1, 2]")
           (py " ``` Hope this helps.")).
  - vm_compute. reflexivity.
  - vm_compute. reflexivity.
  - apply notin_by_eqb. vm_compute. reflexivity.
  - apply notin_by_eqb. vm_compute. reflexivity.
Defined.

Lemma extract_first_to_last_brace_witness :
  extract_json_from_text (PyStr (pyq " ```json {'a': {'b': 2}} ``` "))
  = Json.loads (pyq "{'a': {'b': 2}}").
Proof.
  apply (proj1 extract_first_to_last_brace
           (pyq " ```json {'a': {'b': 2}} ``` ") [] (pyq "'a': {'b': 2}") []).
  - vm_compute. reflexivity.
  - apply notin_by_eqb. vm_compute. reflexivity.
  - apply notin_by_eqb. vm_compute. reflexivity.
Defined.

(** C6 as stated fails: a 201 response, a 2xx status, with a well-formed
    body makes [call_ai] raise. *)
Lemma call_ai_rejects_201 :
  (200 <= status_code (with_status 201) < 300)%Z
  /\ first_choice_content (with_status 201) = Ok (PyStr (py "ok"))
  /\ fst (call_ai (py "k") (scripted [] (Returned (with_status 201)))
            (prompt (py "doc") (py "q")) [])
     = Err (RuntimeError (text (with_status 201))).
Proof. vm_compute. repeat split; try reflexivity; discriminate. Qed.

Lemma call_ai_status_witness :
  let up := scripted [] (Returned (with_status 500)) in
  let msgs := prompt (py "doc") (py "q") in
  ((exists arg, fst (call_ai (py "k") up msgs []) = Err (RuntimeError arg))
   <-> status_code (with_status 500) <> 200%Z)
  /\ (status_code (with_status 500) <> 200%Z ->
      fst (call_ai (py "k") up msgs [])
      = Err (RuntimeError (text (with_status 500))))
  /\ (status_code (with_status 500) = 200%Z ->
      fst (call_ai (py "k") up msgs [])
      = first_choice_content (with_status 500)).
Proof.
  apply (@call_ai_status (py "k") (scripted [] (Returned (with_status 500)))
           (prompt (py "doc") (py "q")) [] (with_status 500)).
  vm_compute. reflexivity.
Defined.

Lemma prompt_shape_witness :
  (Z.of_nat (length (py "short document")) <= 6000)%Z
  /\ firstn (Z.to_nat 6000) (py "short document") = py "short document".
Proof.
  split; [vm_compute; discriminate|].
  apply (proj1 (proj2 (proj2 (prompt_shape (py "short document") (py "q"))))).
  vm_compute. discriminate.
Defined.

Lemma extract_result_is_object_witness :
  exists d,
    PyDict [(py "a", PyList [PyNone; PyBool true])] = PyDict d.
Proof.
  apply (@extract_result_is_object (PyStr (pyq "x {'a': [null, true]} y"))).
  vm_compute. reflexivity.
Defined.

(** * Further properties of the pipeline *)

(** ** What fence removal and stripping keep *)

Module KeepFacts.
Import Str Fence StrFacts FenceFacts.

Lemma match_len_fence s :
  Forall (fun c => fence_char c = true) (firstn (match_len s) s).
Proof.
  unfold match_len.
  destruct (is_ticks s) eqn:Et; [|constructor].
  destruct s as [|a [|b [|c r]]]; try discriminate.
  simpl in Et. apply andb_true_iff in Et as [Et Ec].
  apply andb_true_iff in Et as [Ea Eb].
  assert (T : forall x, N.eqb x backtick = true -> fence_char x = true).
  { intros x Hx. unfold fence_char. now rewrite Hx. }
  cbn [skipn].
  destruct (is_json r) eqn:Ej.
  - destruct r as [|j [|s' [|o [|n r]]]]; try discriminate.
    simpl in Ej. apply andb_true_iff in Ej as [Ej En].
    apply andb_true_iff in Ej as [Ej Eo].
    apply andb_true_iff in Ej as [Ej Es].
    cbn [firstn]. repeat constructor; auto;
      unfold fence_char;
      rewrite ?Ej, ?Es, ?Eo, ?En, ?orb_true_r; reflexivity.
  - cbn [firstn]. repeat constructor; auto.
Qed.

Lemma sub_go_filter s :
  forall k,
    Forall (fun c => fence_char c = true) (firstn k s) ->
    filter kept_char (sub_go k s) = filter kept_char s.
Proof.
  induction s as [|c r IH]; intros k Hk; [reflexivity|].
  rewrite sub_go_cons.
  destruct k as [|k].
  - pose proof (match_len_fence (c :: r)) as Hm.
    destruct (match_len (c :: r)) as [|n].
    + simpl. now rewrite (IH 0) by constructor.
    + cbn [firstn] in Hm. inversion Hm as [|? ? Hc Hr]; subst.
      simpl. unfold kept_char at 2. rewrite Hc. cbn [negb].
      now apply IH.
  - cbn [firstn] in Hk. inversion Hk as [|? ? Hc Hr]; subst.
    simpl. unfold kept_char at 2. rewrite Hc. cbn [negb].
    now apply IH.
Qed.

Lemma sub_in_iff c s :
  fence_char c = false -> (In c (sub s) <-> In c s).
Proof.
  intro Hc.
  assert (K : kept_char c = true) by (unfold kept_char; now rewrite Hc).
  pose proof (@sub_go_filter s 0 (Forall_nil _)) as F. fold (sub s) in F.
  split; intro H.
  - eapply sub_go_incl, H.
  - assert (Hf : In c (filter kept_char s)) by (apply filter_In; auto).
    rewrite <- F in Hf. now apply filter_In in Hf.
Qed.

Lemma lstrip_in c s : isspace c = false -> In c s -> In c (lstrip s).
Proof.
  intros Hc. induction s as [|x s IH]; simpl; [auto|].
  intros [->|H].
  - rewrite Hc. now left.
  - destruct (isspace x); [auto|now right].
Qed.

Lemma strip_in_iff c s :
  isspace c = false -> (In c (strip s) <-> In c s).
Proof.
  intro Hc. split; intro H.
  - now apply lstrip_incl, rstrip_incl.
  - unfold strip, rstrip. apply in_rev. rewrite rev_involutive.
    apply lstrip_in; [assumption|]. apply -> in_rev.
    now apply lstrip_in.
Qed.

(** Neither step of the clean-up removes or adds a brace. *)
Lemma cleaned_in_iff c s :
  fence_char c = false -> isspace c = false ->
  (In c (strip (sub s)) <-> In c s).
Proof.
  intros Hf Hs. rewrite strip_in_iff by assumption. now apply sub_in_iff.
Qed.

Lemma sub_go_no_fence s :
  contains s = false -> sub_go 0 s = s.
Proof.
  induction s as [|c r IH]; [reflexivity|].
  intro H. simpl in H. apply orb_false_iff in H as [Ht Hc].
  rewrite sub_go_cons, match_len_no_ticks by exact Ht.
  now rewrite IH.
Qed.

Lemma sub_go_length s : forall k, length (sub_go k s) <= length s.
Proof.
  induction s as [|c r IH]; intro k; [simpl; lia|].
  rewrite sub_go_cons.
  destruct k as [|k].
  - destruct (match_len (c :: r)); simpl; [specialize (IH 0)|specialize (IH n)];
      lia.
  - specialize (IH k). simpl. lia.
Qed.

Lemma find_nonneg c s : (-1 <= find c s)%Z.
Proof.
  induction s as [|x r IH]; simpl; [lia|].
  destruct (N.eqb x c); [lia|].
  destruct (Z.eqb_spec (find c r) (-1)); lia.
Qed.

Lemma find_in c s : In c s -> find c s <> (-1)%Z.
Proof.
  induction s as [|x r IH]; simpl; [tauto|].
  intros [->|H].
  - now rewrite N.eqb_refl.
  - destruct (N.eqb x c); [discriminate|].
    pose proof (find_nonneg c r) as B.
    destruct (Z.eqb_spec (find c r) (-1)); [now apply IH in H|lia].
Qed.

Lemma rfind_bounds c s : (-1 <= rfind c s < Z.of_nat (length s))%Z.
Proof.
  induction s as [|x r IH]; simpl length; [simpl; lia|].
  cbn [rfind].
  destruct (Z.eqb_spec (rfind c r) (-1)); [destruct (N.eqb x c)|]; lia.
Qed.

Lemma rfind_in c s : In c s -> rfind c s <> (-1)%Z.
Proof.
  induction s as [|x r IH]; simpl; [tauto|].
  pose proof (rfind_bounds c r) as B.
  intros [->|H].
  - rewrite N.eqb_refl. destruct (Z.eqb_spec (rfind c r) (-1)); lia.
  - destruct (Z.eqb_spec (rfind c r) (-1)); [now apply IH in H|lia].
Qed.

Lemma rfind_app_notin c a x :
  ~ In c x -> rfind c (a ++ x) = rfind c a.
Proof.
  intro H. induction a as [|y a IH]; simpl.
  - now apply rfind_notin.
  - now rewrite IH.
Qed.

Lemma slice_empty s lo hi :
  (0 <= hi)%Z -> (hi <= lo)%Z -> slice s lo hi = [].
Proof.
  intros Hlo Hhi. unfold slice.
  replace (Z.to_nat (clamp (Z.of_nat (length s)) hi
                     - clamp (Z.of_nat (length s)) lo)) with 0; [reflexivity|].
  unfold clamp.
  destruct (Z.ltb_spec hi 0); destruct (Z.ltb_spec lo 0); lia.
Qed.

End KeepFacts.

(** ** Extraction: further behaviour *)

Lemma no_json_iff (s : pystr) :
  extract_json_from_text (PyStr s) = Err no_json
  <-> ~ Str.blank s /\ (~ In open_brace s \/ ~ In close_brace s).
Proof.
  assert (Ko : forall t, In open_brace (Str.strip (Fence.sub t)) <-> In open_brace t)
    by (intro t; now apply KeepFacts.cleaned_in_iff).
  assert (Kc : forall t, In close_brace (Str.strip (Fence.sub t)) <-> In close_brace t)
    by (intro t; now apply KeepFacts.cleaned_in_iff).
  split.
  - intro H.
    assert (Hb : ~ Str.blank s).
    { intro B. rewrite (@ExtractFacts.extract_blank s B) in H.
      vm_compute in H. discriminate. }
    split; [exact Hb|].
    assert (Hs : Str.strip s <> [])
      by (intro E; apply Hb; now apply StrFacts.strip_nil_iff).
    rewrite (@ExtractFacts.extract_not_blank s Hs) in H. cbv zeta in H.
    set (t := Str.strip (Fence.sub s)) in *.
    destruct (Z.eqb_spec (Str.find open_brace t) (-1)) as [E1|E1].
    + left. intro Hin. apply Ko in Hin. fold t in Hin.
      now apply KeepFacts.find_in in Hin.
    + destruct (Z.eqb_spec (Str.rfind close_brace t) (-1)) as [E2|E2].
      * right. intro Hin. apply Kc in Hin. fold t in Hin.
        now apply KeepFacts.rfind_in in Hin.
      * cbn [orb] in H. apply JsonFacts.loads_err in H as [m Hm].
        discriminate.
  - intros [Hb Hbr].
    assert (Hs : Str.strip s <> [])
      by (intro E; apply Hb; now apply StrFacts.strip_nil_iff).
    rewrite (@ExtractFacts.extract_not_blank s Hs). cbv zeta.
    set (t := Str.strip (Fence.sub s)).
    destruct Hbr as [Ho|Hc].
    + rewrite (@StrFacts.find_notin open_brace t); [reflexivity|].
      intro Hin. apply Ho. now apply Ko.
    + rewrite (@StrFacts.rfind_notin close_brace t);
        [now rewrite orb_true_r|].
      intro Hin. apply Hc. now apply Kc.
Qed.

(** X1.  Removing the fences deletes nothing but backticks and letters of
    [json]: every other character of the answer, braces and quotes among
    them, is kept, in order; and the text never grows. *)
Theorem fence_removal_keeps_other_characters (s : pystr) :
  filter kept_char (Fence.sub s) = filter kept_char s
  /\ length (Fence.sub s) <= length s.
Proof.
  split.
  - apply KeepFacts.sub_go_filter. constructor.
  - apply KeepFacts.sub_go_length.
Qed.

(** X2.  A text without three consecutive backticks goes through the fence
    removal unchanged, whatever letters it holds. *)
Theorem fence_removal_without_fence (s : pystr) :
  Fence.contains s = false -> Fence.sub s = s.
Proof. apply KeepFacts.sub_go_no_fence. Qed.

Lemma fence_removal_without_fence_witness :
  Fence.sub (pyq "{'json': '`` not a fence'}") = pyq "{'json': '`` not a fence'}".
Proof.
  apply (@fence_removal_without_fence (pyq "{'json': '`` not a fence'}")).
  vm_compute. reflexivity.
Defined.

(** X3.  On a [str], the failure is "No JSON detected" exactly when the text
    is not blank and lacks an opening brace or lacks a closing brace. *)
Theorem extract_no_json_iff (s : pystr) :
  extract_json_from_text (PyStr s) = Err no_json
  <-> ~ Str.blank s /\ (~ In open_brace s \/ ~ In close_brace s).
Proof. apply no_json_iff. Qed.

(** X4.  A value is returned only for a [str] that is not blank and holds
    both an opening and a closing brace; an answer of any other type, a JSON
    object included, is never accepted. *)
Theorem extract_success_needs (text v : pyobj) :
  extract_json_from_text text = Ok v ->
  exists s, text = PyStr s
            /\ ~ Str.blank s /\ In open_brace s /\ In close_brace s.
Proof.
  intro H.
  assert (Hs : exists s, text = PyStr s).
  { unfold extract_json_from_text in H.
    destruct (Obj.truthy text); cbn [negb] in H; [|discriminate].
    destruct text; try discriminate. eauto. }
  destruct Hs as [s ->]. exists s. split; [reflexivity|].
  assert (Hb : ~ Str.blank s).
  { intro B. rewrite (@ExtractFacts.extract_blank s B) in H. discriminate. }
  split; [exact Hb|].
  destruct (in_dec N.eq_dec open_brace s) as [Io|No].
  - destruct (in_dec N.eq_dec close_brace s) as [Ic|Nc]; [auto|].
    assert (E : extract_json_from_text (PyStr s) = Err no_json)
      by (apply no_json_iff; auto).
    congruence.
  - assert (E : extract_json_from_text (PyStr s) = Err no_json)
      by (apply no_json_iff; auto).
    congruence.
Qed.

Lemma extract_success_needs_witness :
  exists s, PyStr (pyq "ok: {'a': 1}") = PyStr s
            /\ ~ Str.blank s /\ In open_brace s /\ In close_brace s.
Proof.
  apply (@extract_success_needs (PyStr (pyq "ok: {'a': 1}"))
           (PyDict [(py "a", PyInt 1)])).
  vm_compute. reflexivity.
Defined.

(** X5.  When every closing brace of the cleaned text comes before its first
    opening brace, the slice is empty and the failure is [json.loads]'s
    "Expecting value", not "No JSON detected". *)
Theorem extract_reversed_braces (s a b : pystr) :
  Str.strip (Fence.sub s) = a ++ open_brace :: b ->
  ~ In open_brace a ->
  In close_brace a ->
  ~ In close_brace b ->
  extract_json_from_text (PyStr s)
  = Err (JSONDecodeError (py "Expecting value")).
Proof.
  intros Ht Ha Hca Hcb.
  assert (Hs : Str.strip s <> []).
  { intro E. apply StrFacts.strip_nil_iff in E.
    pose proof (@FenceFacts.sub_blank s E) as Hsub. rewrite Hsub in Ht.
    apply StrFacts.strip_nil_iff in E. rewrite E in Ht.
    destruct a; discriminate. }
  rewrite (@ExtractFacts.extract_not_blank s Hs). cbv zeta. rewrite Ht.
  rewrite StrFacts.find_first by assumption.
  assert (Hr : Str.rfind close_brace (a ++ open_brace :: b)
               = Str.rfind close_brace a).
  { apply KeepFacts.rfind_app_notin. intros [E|E]; [discriminate|auto]. }
  rewrite Hr.
  pose proof (KeepFacts.rfind_bounds close_brace a) as B.
  pose proof (KeepFacts.rfind_in close_brace a Hca) as Hne.
  destruct (Z.eqb_spec (Z.of_nat (length a)) (-1)); [lia|].
  destruct (Z.eqb_spec (Str.rfind close_brace a) (-1)); [contradiction|].
  cbn [orb]. rewrite KeepFacts.slice_empty by lia.
  apply JsonFacts.loads_nil.
Qed.

Lemma extract_reversed_braces_witness :
  extract_json_from_text (PyStr (py "done } and then { open"))
  = Err (JSONDecodeError (py "Expecting value")).
Proof.
  apply (@extract_reversed_braces (py "done } and then { open")
           (py "done } and then ") (py " open")).
  - vm_compute. reflexivity.
  - apply notin_by_eqb. vm_compute. reflexivity.
  - vm_compute. tauto.
  - apply notin_by_eqb. vm_compute. reflexivity.
Defined.

(** ** The orchestrator: further behaviour *)

Lemma request_trace
    (api_key : pystr) (upstream : nat -> Request -> post_outcome)
    (doc q : pystr) (l : log) :
  let p := prompt doc q in
  let P := chat_request api_key p in
  let R := fun raw => chat_request api_key (repair_prompt raw) in
  let second := fst (call_ai api_key upstream p (l ++ [P])) in
  let out := analyze_with_ai api_key upstream doc q l in
  (snd out = l ++ [P] /\ is_ok (fst out) = true)
  \/ (exists raw, snd out = l ++ [P; P; R raw] /\ is_ok (fst out) = true
                  /\ second = Ok raw)
  \/ (snd out = l ++ [P; P; P] /\ is_ok second = false)
  \/ (exists raw, snd out = l ++ [P; P; R raw; P] /\ second = Ok raw).
Proof.
  intros p P R second out. subst out.
  unfold analyze_with_ai, try_or. fold p.
  rewrite attempt1_eq. fold P.
  destruct (match fst (call_ai api_key upstream p l) with
            | Ok raw => extract_json_from_text raw
            | Err e => Err e
            end) as [v|e1].
  { left. split; reflexivity. }
  right.
  rewrite attempt2_eq. fold P. fold second.
  destruct second as [raw|e2] eqn:E2.
  - fold (R raw).
    destruct (match fst (call_ai api_key upstream (repair_prompt raw)
                           ((l ++ [P]) ++ [P])) with
              | Ok fixed => extract_json_from_text fixed
              | Err e => Err e
              end) as [v|e3].
    + left. exists raw. rewrite <- app_assoc. repeat split; reflexivity.
    + right. right. exists raw.
      rewrite attempt3_eq, attempt1_eq. fold P. cbn [snd].
      split; [|reflexivity]. now rewrite <- !app_assoc.
  - right. left.
    rewrite attempt3_eq, attempt1_eq. fold P. cbn [snd].
    split; [|reflexivity]. now rewrite <- !app_assoc.
Qed.


(** X7.  When every call of the model itself fails (no response, or a
    status other than 200), the analysis fails after exactly three requests,
    each with the analysis prompt: the repair request is never sent.  The
    error returned is the third call's. *)
Theorem analyze_all_calls_raise
    (api_key : pystr) (upstream : nat -> Request -> post_outcome)
    (doc q : pystr) (l : log) :
  (forall msgs l', is_ok (fst (call_ai api_key upstream msgs l')) = false) ->
  let p := prompt doc q in
  let P := chat_request api_key p in
  analyze_with_ai api_key upstream doc q l
  = (fst (call_ai api_key upstream p (l ++ [P; P])), l ++ [P; P; P])
  /\ is_ok (fst (analyze_with_ai api_key upstream doc q l)) = false.
Proof.
  intros H p P.
  assert (A : forall l1, attempt1 api_key upstream p l1
                         = (fst (call_ai api_key upstream p l1), l1 ++ [P])).
  { intro l1. rewrite attempt1_eq. specialize (H p l1).
    now destruct (fst (call_ai api_key upstream p l1)). }
  assert (E : analyze_with_ai api_key upstream doc q l
              = (fst (call_ai api_key upstream p (l ++ [P; P])),
                 l ++ [P; P; P])).
  { unfold analyze_with_ai, try_or. fold p.
    rewrite A. pose proof (H p l) as H1.
    destruct (fst (call_ai api_key upstream p l)); [discriminate|].
    rewrite attempt2_eq. fold P. pose proof (H p (l ++ [P])) as H2.
    destruct (fst (call_ai api_key upstream p (l ++ [P]))); [discriminate|].
    rewrite attempt3_eq, A. now rewrite <- !app_assoc. }
  split; [exact E|]. rewrite E. apply H.
Qed.

Lemma analyze_all_calls_raise_witness :
  let up := scripted [] (Returned (with_status 500)) in
  let P := chat_request (py "k") (prompt (py "doc") (py "q")) in
  analyze_with_ai (py "k") up (py "doc") (py "q") []
  = (fst (call_ai (py "k") up (prompt (py "doc") (py "q")) [P; P]), [P; P; P])
  /\ is_ok (fst (analyze_with_ai (py "k") up (py "doc") (py "q") [])) = false.
Proof.
  apply (@analyze_all_calls_raise (py "k")
           (scripted [] (Returned (with_status 500))) (py "doc") (py "q") []).
  intros msgs l'. unfold call_ai, scripted.
  destruct (length l') as [|n]; [|destruct n]; vm_compute; reflexivity.
Defined.

(** X8.  Two documents with the same first 6000 characters are analysed
    alike: what lies beyond never reaches the model. *)
Theorem analyze_ignores_text_beyond_cap
    (api_key : pystr) (upstream : nat -> Request -> post_outcome)
    (doc doc' q : pystr) (l : log) :
  firstn (Z.to_nat 6000) doc = firstn (Z.to_nat 6000) doc' ->
  analyze_with_ai api_key upstream doc q l
  = analyze_with_ai api_key upstream doc' q l.
Proof.
  intro H. unfold analyze_with_ai.
  assert (E : prompt doc q = prompt doc' q).
  { unfold prompt. rewrite !slice_prefix_Z by lia. now rewrite H. }
  now rewrite E.
Qed.

Lemma analyze_ignores_text_beyond_cap_witness :
  analyze_with_ai (py "k") one_field_service
    (repeat 97%N (Z.to_nat 6000) ++ py "tail one") (py "q") []
  = analyze_with_ai (py "k") one_field_service
      (repeat 97%N (Z.to_nat 6000) ++ py "another tail") (py "q") [].
Proof.
  apply analyze_ignores_text_beyond_cap.
  vm_compute. reflexivity.
Defined.

(** X9.  A 200 response whose first choice has a message without content,
    or with a null content, makes the attempt fail with the empty-response
    error: the default of [get] is the empty string. *)
Theorem attempt_without_content
    (api_key : pystr) (upstream : nat -> Request -> post_outcome)
    (p : list ChatMessage) (l : log) (resp : Response)
    (d c m : list (pystr * pyobj)) (cs : list pyobj) :
  upstream (length l) (chat_request api_key p) = Returned resp ->
  status_code resp = 200%Z ->
  Json.loads (text resp) = Ok (PyDict d) ->
  Obj.lookup d (py "choices") = Some (PyList (PyDict c :: cs)) ->
  Obj.lookup c (py "message") = Some (PyDict m) ->
  Obj.lookup m (py "content") = None
  \/ Obj.lookup m (py "content") = Some PyNone ->
  attempt1 api_key upstream p l
  = (Err empty_response, l ++ [chat_request api_key p]).
Proof.
  intros Hup Hst Hbody Hch Hmsg Hc.
  rewrite attempt1_eq. f_equal.
  unfold call_ai. rewrite Hup, Hst. cbn [Z.eqb Pos.eqb negb fst].
  unfold first_choice_content. rewrite Hbody. cbn [bind Obj.getitem_str].
  rewrite Hch. cbn [bind Obj.getitem_0 Obj.getitem_str]. rewrite Hmsg.
  cbn [bind Obj.get].
  destruct Hc as [-> | ->]; reflexivity.
Qed.

Lemma attempt_without_content_witness :
  let resp := {| status_code := 200;
                 text := pyq "{'choices': [{'message': {'role': 'assistant'}}]}" |} in
  attempt1 (py "k") (scripted [] (Returned resp)) (prompt (py "doc") (py "q")) []
  = (Err empty_response, [chat_request (py "k") (prompt (py "doc") (py "q"))]).
Proof.
  apply (@attempt_without_content (py "k") _ (prompt (py "doc") (py "q")) []
           {| status_code := 200;
              text := pyq "{'choices': [{'message': {'role': 'assistant'}}]}" |}
           [(py "choices",
             PyList [PyDict [(py "message",
                              PyDict [(py "role", PyStr (py "assistant"))])]])]
           [(py "message", PyDict [(py "role", PyStr (py "assistant"))])]
           [(py "role", PyStr (py "assistant"))] []).
  - reflexivity.
  - reflexivity.
  - vm_compute. reflexivity.
  - vm_compute. reflexivity.
  - vm_compute. reflexivity.
  - left. vm_compute. reflexivity.
Defined.

(** ** The session dictionary *)

Module DictFacts.

Lemma lookup_set_same d k v : Obj.lookup (Json.dict_set d k v) k = Some v.
Proof.
  induction d as [|[k' v'] d IH]; simpl.
  - now rewrite StrFacts.eqb_refl.
  - destruct (Str.eqb k' k) eqn:E; simpl; rewrite E; [reflexivity|exact IH].
Qed.

Lemma lookup_set_other d k v k' :
  k <> k' -> Obj.lookup (Json.dict_set d k v) k' = Obj.lookup d k'.
Proof.
  intro Hk. induction d as [|[k0 v0] d IH]; simpl.
  - destruct (Str.eqb k k') eqn:E; [|reflexivity].
    apply StrFacts.eqb_eq in E. contradiction.
  - destruct (Str.eqb k0 k) eqn:E; simpl.
    + apply StrFacts.eqb_eq in E. subst k0.
      destruct (Str.eqb k k') eqn:E'; [|reflexivity].
      apply StrFacts.eqb_eq in E'. contradiction.
    + now rewrite IH.
Qed.

Lemma get_set_same d k v : session_get (Json.dict_set d k v) k = v.
Proof. unfold session_get. now rewrite lookup_set_same. Qed.

Lemma get_set_other d k v k' :
  k <> k' -> session_get (Json.dict_set d k v) k' = session_get d k'.
Proof. intro H. unfold session_get. now rewrite lookup_set_other. Qed.

Lemma stored_set d k v k' : stored d k' -> stored (Json.dict_set d k v) k'.
Proof.
  unfold stored. intro H.
  destruct (list_eq_dec N.eq_dec k k') as [->|Hk].
  - rewrite lookup_set_same. discriminate.
  - now rewrite lookup_set_other.
Qed.

Lemma stored_set_same d k v : stored (Json.dict_set d k v) k.
Proof. unfold stored. rewrite lookup_set_same. discriminate. Qed.

End DictFacts.

(** Distinct literal keys. *)
Ltac keys_differ :=
  let H := fresh "H" in intro H; vm_compute in H; discriminate H.

(** ** The page script *)

Section ScriptFacts.

Variable api_key : pystr.
Variable upstream : nat -> Request -> post_outcome.
Variable webhook : pyobj -> post_outcome.

#[local] Abbreviation stage2' := (stage2 api_key upstream).
#[local] Abbreviation script' := (script api_key upstream webhook).

Lemma session_show es pg : session (show es pg) = session pg.
Proof. reflexivity. Qed.

(** Stage 2 either leaves the session as it is, or ends normally having
    stored the four keys. *)
Lemma stage2_inv inp pg st pg' :
  stage2' inp pg = (st, pg') ->
  posted pg' = posted pg
  /\ ((st = Running /\ analyze_clicked inp = false /\ pg' = pg)
      \/ (st <> Running /\ analyze_clicked inp = true
          /\ session pg' = session pg)
      \/ (st = Running /\ analyze_clicked inp = true
          /\ exists f text v,
               uploaded_file inp = Some f
               /\ fst (read_document f) = Some text
               /\ fst (analyze_with_ai api_key upstream text
                         (user_question inp) (sent pg)) = Ok v
               /\ session pg'
                  = Json.dict_set
                      (Json.dict_set
                         (Json.dict_set
                            (Json.dict_set (session pg) (py "analysis_done")
                               (PyBool true))
                            (py "structured_data") v)
                         (py "extracted_text") (PyStr text))
                      (py "user_question") (PyStr (user_question inp)))).
Proof.
  unfold stage2. intro H.
  destruct (analyze_clicked inp) eqn:Hc; cbn [negb] in H.
  - cbv zeta in H.
    destruct (uploaded_file inp) as [f|] eqn:Hf.
    + destruct (read_document f) as [[text|] why] eqn:Hr.
      * match type of H with
        | context [analyze_with_ai ?k ?u ?t ?q ?l] =>
            destruct (analyze_with_ai k u t q l) as [[v|e] l'] eqn:Ha
        end; injection H as <- <-.
        -- split; [reflexivity|]. right. right.
           repeat split; auto. exists f, text, v.
           rewrite Hr. cbn [fst]. repeat split; auto.
           cbn [sent show] in Ha. now rewrite Ha.
        -- split; [reflexivity|]. right. left.
           repeat split; auto. discriminate.
      * injection H as <- <-. split; [reflexivity|]. right. left.
        repeat split; auto. discriminate.
    + injection H as <- <-. split; [reflexivity|]. right. left.
      repeat split; auto. discriminate.
  - injection H as <- <-. split; [reflexivity|]. left. auto.
Qed.

Lemma stage3_inv inp pg st pg' :
  stage3 inp pg = (st, pg') ->
  st = Running /\ posted pg' = posted pg /\ sent pg' = sent pg
  /\ (session pg' = session pg
      \/ session pg'
         = Json.dict_set (session pg) (py "email_input")
             (PyStr (email_typed inp))
      \/ (Obj.truthy (session_get (session pg) (py "analysis_done")) = true
          /\ session pg'
             = Json.dict_set
                 (Json.dict_set (session pg) (py "email_input")
                    (PyStr (email_typed inp)))
                 (py "send_email") (PyBool true))).
Proof.
  unfold stage3. intro H.
  destruct (Obj.truthy (session_get (session pg) (py "analysis_done"))) eqn:Hd.
  - cbv zeta in H. destruct (send_clicked inp); injection H as <- <-;
      repeat split; auto.
  - injection H as <- <-. repeat split; auto.
Qed.

(** The payload is built when the three results are stored. *)
Lemma build_payload_ok ss recipient :
  stored ss (py "extracted_text") ->
  stored ss (py "user_question") ->
  stored ss (py "structured_data") ->
  exists payload, build_payload ss recipient = Ok payload.
Proof.
  unfold stored, build_payload, session_item. intros H1 H2 H3.
  destruct (Obj.lookup ss (py "extracted_text")); [|contradiction].
  destruct (Obj.lookup ss (py "user_question")); [|contradiction].
  destruct (Obj.lookup ss (py "structured_data")); [|contradiction].
  cbn [bind]. eauto.
Qed.

Lemma build_payload_err ss recipient e :
  build_payload ss recipient = Err e -> e = KeyError.
Proof.
  unfold build_payload, session_item.
  destruct (Obj.lookup ss (py "extracted_text")); cbn [bind];
    [|now intros [= <-]].
  destruct (Obj.lookup ss (py "user_question")); cbn [bind];
    [|now intros [= <-]].
  destruct (Obj.lookup ss (py "structured_data")); cbn [bind];
    [discriminate|now intros [= <-]].
Qed.

Lemma present_result_inv result pg st pg' :
  present_result result pg = (st, pg') ->
  posted pg' = posted pg
  /\ ((st = Running /\ is_dict result = true
       /\ session pg'
          = Json.dict_set (session pg) (py "send_email") (PyBool false))
      \/ (st = Crashed (Uncaught AttributeError) /\ is_dict result = false
          /\ pg' = pg)).
Proof.
  unfold present_result, Obj.get. intro H.
  destruct result; try (injection H as <- <-; split; [reflexivity|]; right;
                        repeat split; reflexivity).
  destruct (Obj.lookup d (py "final_answer"));
    destruct (Obj.lookup d (py "email_body"));
    destruct (Obj.lookup d (py "email_status"));
    injection H as <- <-; split; try reflexivity; left; repeat split.
Qed.

(** Stage 4 ends normally with the flag reset, or leaves the session as it
    is. *)
Lemma stage4_inv pg st pg' :
  stage4 webhook pg = (st, pg') ->
  (st = Running /\ pg' = pg
   /\ Obj.truthy (session_get (session pg) (py "send_email")) = false)
  \/ (Obj.truthy (session_get (session pg) (py "send_email")) = true
      /\ ((st = Running
           /\ session pg'
              = Json.dict_set (session pg) (py "send_email") (PyBool false))
          \/ (st <> Running /\ session pg' = session pg
              /\ forall e, st = Crashed (Uncaught e) ->
                   (e = KeyError
                    /\ build_payload (session pg)
                         (session_get (session pg) (py "email_input"))
                       = Err KeyError)
                   \/ e = AttributeError)
              /\ forall why, st = Crashed why -> exists e, why = Uncaught e)).
Proof.
  unfold stage4. intro H.
  destruct (Obj.truthy (session_get (session pg) (py "send_email"))) eqn:Hs.
  2:{ injection H as <- <-. left. auto. }
  right. split; [reflexivity|]. cbv zeta in H. cbn [session show] in H.
  destruct (Obj.truthy (session_get (session pg) (py "email_input"))) eqn:Hr;
    cbn [negb] in H.
  2:{ injection H as <- <-. right. repeat split; try discriminate; auto. }
  destruct (build_payload (session pg)
              (session_get (session pg) (py "email_input")))
    as [payload|e] eqn:Hp.
  2:{ injection H as <- <-. right.
      pose proof (build_payload_err _ _ Hp) as ->.
      repeat split; try discriminate; auto.
      - intros e [= <-]. auto.
      - intros why [= <-]. eauto. }
  destruct (webhook payload) as [why|r].
  { injection H as <- <-. right. repeat split; try discriminate; auto. }
  destruct (is_http_error (status_code r)).
  { injection H as <- <-. right. repeat split; try discriminate; auto. }
  destruct (negb (Obj.truthy (PyStr (text r)))).
  { injection H as <- <-. right. repeat split; try discriminate; auto. }
  destruct (Json.loads (text r)) as [result|e].
  2:{ injection H as <- <-. right. repeat split; try discriminate; auto. }
  apply present_result_inv in H.
  destruct H as [_ [(-> & _ & Hss)|(-> & _ & ->)]].
  - left. split; [reflexivity|]. exact Hss.
  - right. repeat split; try discriminate; auto.
    + intros e [= <-]. auto.
    + intros why [= <-]. eauto.
Qed.

End ScriptFacts.

(** *** The session invariant *)

Lemma session_ok_set ss k v :
  session_ok ss ->
  k <> py "analysis_done" -> k <> py "send_email" ->
  session_ok (Json.dict_set ss k v).
Proof.
  intros [H1 H2] Ka Ks. split.
  - rewrite DictFacts.get_set_other by assumption. intro Hd.
    destruct (H1 Hd) as (S1 & S2 & S3).
    repeat split; now apply DictFacts.stored_set.
  - rewrite !DictFacts.get_set_other by assumption. exact H2.
Qed.

Lemma session_ok_request ss :
  session_ok ss ->
  Obj.truthy (session_get ss (py "analysis_done")) = true ->
  session_ok (Json.dict_set ss (py "send_email") (PyBool true)).
Proof.
  intros [H1 H2] Hd. split.
  - rewrite DictFacts.get_set_other by keys_differ. intros _.
    destruct (H1 Hd) as (S1 & S2 & S3).
    repeat split; now apply DictFacts.stored_set.
  - intros _. now rewrite DictFacts.get_set_other by keys_differ.
Qed.

Lemma session_ok_reset ss :
  session_ok ss ->
  session_ok (Json.dict_set ss (py "send_email") (PyBool false)).
Proof.
  intros [H1 H2]. split.
  - rewrite DictFacts.get_set_other by keys_differ. intro Hd.
    destruct (H1 Hd) as (S1 & S2 & S3).
    repeat split; now apply DictFacts.stored_set.
  - rewrite DictFacts.get_set_same. discriminate.
Qed.

Lemma session_ok_done ss v t q :
  session_ok
    (Json.dict_set
       (Json.dict_set
          (Json.dict_set
             (Json.dict_set ss (py "analysis_done") (PyBool true))
             (py "structured_data") v)
          (py "extracted_text") t)
       (py "user_question") q).
Proof.
  split.
  - intros _. repeat split.
    + apply DictFacts.stored_set, DictFacts.stored_set_same.
    + apply DictFacts.stored_set_same.
    + apply DictFacts.stored_set, DictFacts.stored_set,
        DictFacts.stored_set_same.
  - intros _.
    rewrite !DictFacts.get_set_other by keys_differ.
    now rewrite DictFacts.get_set_same.
Qed.

Lemma stage2_ok api_key upstream inp pg st pg' :
  session_ok (session pg) ->
  stage2 api_key upstream inp pg = (st, pg') ->
  session_ok (session pg').
Proof.
  intros Hok H. apply stage2_inv in H.
  destruct H as [_ [(_ & _ & ->)|[(_ & _ & ->)|(_ & _ & f & t & v & _ & _ & _ & ->)]]];
    auto using session_ok_done.
Qed.

Lemma stage3_ok inp pg st pg' :
  session_ok (session pg) ->
  stage3 inp pg = (st, pg') ->
  session_ok (session pg').
Proof.
  intros Hok H. apply stage3_inv in H.
  destruct H as (_ & _ & _ & [->|[->|[Hd ->]]]); auto.
  - apply session_ok_set; [assumption|keys_differ..].
  - apply session_ok_request.
    + apply session_ok_set; [assumption|keys_differ..].
    + now rewrite DictFacts.get_set_other by keys_differ.
Qed.

Lemma stage4_ok webhook pg st pg' :
  session_ok (session pg) ->
  stage4 webhook pg = (st, pg') ->
  session_ok (session pg').
Proof.
  intros Hok H. apply stage4_inv in H.
  destruct H as [(_ & -> & _)|(_ & [(_ & ->)|((_ & -> & _) & _)])]; auto.
  now apply session_ok_reset.
Qed.

Lemma stage2_crash api_key upstream inp pg why pg' :
  stage2 api_key upstream inp pg = (Crashed why, pg') ->
  why = PdfUnreadable \/ why = NotUtf8.
Proof.
  unfold stage2. intro H.
  destruct (analyze_clicked inp); cbn [negb] in H; [|discriminate].
  cbv zeta in H.
  destruct (uploaded_file inp) as [f|]; [|discriminate].
  destruct (read_document f) as [[text|] w] eqn:Hr.
  - match type of H with
    | context [analyze_with_ai ?k ?u ?t ?q ?l] =>
        destruct (analyze_with_ai k u t q l) as [[v|e] l']
    end; discriminate.
  - injection H as <- _. unfold read_document in Hr.
    destruct (Str.eqb (file_type f) (py "application/pdf")).
    + destruct (pdf_pages f); [discriminate|]. injection Hr as <-; auto.
    + injection Hr as _ <-; auto.
Qed.

Lemma stage2_sent api_key upstream inp pg st pg' :
  stage2 api_key upstream inp pg = (st, pg') ->
  exists extra, sent pg' = sent pg ++ extra /\ length extra <= 4.
Proof.
  unfold stage2. intro H.
  destruct (analyze_clicked inp); cbn [negb] in H.
  2:{ injection H as _ <-. exists []. rewrite app_nil_r. auto with arith. }
  cbv zeta in H.
  destruct (uploaded_file inp) as [f|].
  2:{ injection H as _ <-. exists []. rewrite app_nil_r. auto with arith. }
  destruct (read_document f) as [[text|] w].
  2:{ injection H as _ <-. exists []. rewrite app_nil_r. auto with arith. }
  cbn [sent show] in H.
  pose proof (request_trace api_key upstream text (user_question inp) (sent pg))
    as T. cbv zeta in T.
  destruct (analyze_with_ai api_key upstream text (user_question inp) (sent pg))
    as [[v|e] l'] eqn:Ha; cbn [fst snd] in T; injection H as _ <-;
    cbn [sent show with_sent with_session];
    destruct T as [[-> _]|[(raw & -> & _)|[[-> _]|(raw & -> & _)]]];
    eexists; split; try reflexivity; simpl; lia.
Qed.

(** Whatever the analysis returns is a [dict]. *)
Lemma analyze_returns_dict api_key upstream doc q l l' v :
  analyze_with_ai api_key upstream doc q l = (Ok v, l') -> is_dict v = true.
Proof.
  set (p := prompt doc q).
  assert (One : forall l1 l2,
             attempt1 api_key upstream p l1 = (Ok v, l2) -> is_dict v = true).
  { intros l1 l2. rewrite attempt1_eq.
    destruct (fst (call_ai api_key upstream p l1)) as [raw|e];
      [|discriminate].
    intros [= Hv _]. eapply ExtractFacts.extract_returns_dict, Hv. }
  unfold analyze_with_ai, try_or. fold p.
  destruct (attempt1 api_key upstream p l) as [[v1|e1] l1] eqn:A1.
  - intros [= -> ->]. eapply One, A1.
  - rewrite attempt2_eq.
    destruct (fst (call_ai api_key upstream p l1)) as [raw|e2].
    + destruct (fst (call_ai api_key upstream (repair_prompt raw)
                       (l1 ++ [chat_request api_key p]))) as [fixed|e3].
      * destruct (extract_json_from_text fixed) as [v2|e4] eqn:E4.
        -- intros [= -> _]. eapply ExtractFacts.extract_returns_dict, E4.
        -- apply One.
      * apply One.
    + apply One.
Qed.

(** *** Properties of the stages *)

(** X10.  When stage 2 does not end normally (no file, a file that cannot
    be read, or an analysis that raises), the session state is exactly what
    it was, so the results of an earlier analysis stay in place; and nothing
    is posted to the webhook. *)
Theorem stage2_failure_keeps_session
    (api_key : pystr) (upstream : nat -> Request -> post_outcome)
    (inp : Inputs) (pg pg' : Page) (st : status) :
  stage2 api_key upstream inp pg = (st, pg') ->
  st <> Running ->
  session pg' = session pg /\ posted pg' = posted pg.
Proof.
  intros H Hst. apply stage2_inv in H.
  destruct H as [Hp [(-> & _)|[(_ & _ & Hs)|(-> & _)]]]; try contradiction.
  auto.
Qed.

Lemma stage2_failure_keeps_session_witness :
  let out := stage2 (py "k") garbage_service
               (analyze_inputs (text_file (py "doc")) (py "q"))
               (fresh requested_session) in
  session (snd out) = requested_session /\ posted (snd out) = [].
Proof.
  apply (@stage2_failure_keeps_session (py "k") garbage_service
           (analyze_inputs (text_file (py "doc")) (py "q"))
           (fresh requested_session) _ Stopped).
  - vm_compute. reflexivity.
  - discriminate.
Defined.

(** X11.  When stage 2 runs the analysis and ends normally, the session
    holds the flag [analysis_done], the value returned by [analyze_with_ai],
    which is a [dict], the question, and the whole extracted text, not its
    first 6000 or 3000 characters. *)
Theorem stage2_stores_result
    (api_key : pystr) (upstream : nat -> Request -> post_outcome)
    (inp : Inputs) (pg pg' : Page) :
  stage2 api_key upstream inp pg = (Running, pg') ->
  analyze_clicked inp = true ->
  exists f text v,
    uploaded_file inp = Some f
    /\ fst (read_document f) = Some text
    /\ fst (analyze_with_ai api_key upstream text (user_question inp) (sent pg))
       = Ok v
    /\ is_dict v = true
    /\ session_get (session pg') (py "analysis_done") = PyBool true
    /\ session_get (session pg') (py "structured_data") = v
    /\ session_get (session pg') (py "extracted_text") = PyStr text
    /\ session_get (session pg') (py "user_question")
       = PyStr (user_question inp).
Proof.
  intros H Hc. apply stage2_inv in H.
  destruct H as [_ [(_ & Hn & _)|[(Hn & _)|(_ & _ & f & text & v & Hf & Hr & Ha & ->)]]];
    [congruence|now destruct Hn|].
  exists f, text, v. repeat split; auto.
  - destruct (analyze_with_ai api_key upstream text (user_question inp) (sent pg))
      as [r l'] eqn:E. cbn [fst] in Ha. subst r.
    eapply analyze_returns_dict, E.
  - rewrite !DictFacts.get_set_other by keys_differ.
    apply DictFacts.get_set_same.
  - rewrite !DictFacts.get_set_other by keys_differ.
    apply DictFacts.get_set_same.
  - rewrite !DictFacts.get_set_other by keys_differ.
    apply DictFacts.get_set_same.
  - apply DictFacts.get_set_same.
Qed.

Lemma stage2_stores_result_witness :
  let inp := analyze_inputs (text_file (py "doc")) (py "q") in
  let pg' := snd (stage2 (py "k") one_field_service inp (fresh [])) in
  exists f text v,
    uploaded_file inp = Some f
    /\ fst (read_document f) = Some text
    /\ fst (analyze_with_ai (py "k") one_field_service text
              (user_question inp) [])
       = Ok v
    /\ is_dict v = true
    /\ session_get (session pg') (py "analysis_done") = PyBool true
    /\ session_get (session pg') (py "structured_data") = v
    /\ session_get (session pg') (py "extracted_text") = PyStr text
    /\ session_get (session pg') (py "user_question")
       = PyStr (user_question inp).
Proof.
  apply (@stage2_stores_result (py "k") one_field_service
           (analyze_inputs (text_file (py "doc")) (py "q")) (fresh [])).
  - vm_compute. reflexivity.
  - reflexivity.
Defined.

(** X12.  A run of the script keeps the session consistent: if the analysis
    is marked as done its three results are stored, and an email is
    requested only when an analysis is done. *)
Theorem script_keeps_session_ok
    (api_key : pystr) (upstream : nat -> Request -> post_outcome)
    (webhook : pyobj -> post_outcome)
    (inp : Inputs) (pg pg' : Page) (st : status) :
  session_ok (session pg) ->
  script api_key upstream webhook inp pg = (st, pg') ->
  session_ok (session pg').
Proof.
  intros Hok. unfold script.
  destruct (stage2 api_key upstream inp pg) as [s2 p2] eqn:E2.
  pose proof (stage2_ok _ _ _ _ Hok E2) as Ok2.
  destruct s2; try (intros [= _ <-]; exact Ok2).
  destruct (stage3 inp p2) as [s3 p3] eqn:E3.
  pose proof (stage3_ok _ _ Ok2 E3) as Ok3.
  destruct s3; try (intros [= _ <-]; exact Ok3).
  intro E4. eapply stage4_ok; eassumption.
Qed.

Lemma script_keeps_session_ok_witness :
  session_ok
    (session (snd (script (py "k") one_field_service
                     (hook_answer (with_status 500))
                     (analyze_inputs (text_file (py "doc")) (py "q"))
                     (fresh [])))).
Proof.
  apply (@script_keeps_session_ok (py "k") one_field_service
           (hook_answer (with_status 500))
           (analyze_inputs (text_file (py "doc")) (py "q")) (fresh [])
           _ (fst (script (py "k") one_field_service
                     (hook_answer (with_status 500))
                     (analyze_inputs (text_file (py "doc")) (py "q"))
                     (fresh [])))).
  - split; vm_compute; discriminate.
  - apply surjective_pairing.
Defined.

(** X13.  From a consistent session a run never aborts on a missing session
    key: the only uncaught failures are an uploaded file that cannot be read
    and the [AttributeError] of [result.get] when the webhook's JSON is not
    an object. *)
Theorem script_crash_causes
    (api_key : pystr) (upstream : nat -> Request -> post_outcome)
    (webhook : pyobj -> post_outcome)
    (inp : Inputs) (pg pg' : Page) (why : failure) :
  session_ok (session pg) ->
  script api_key upstream webhook inp pg = (Crashed why, pg') ->
  why = PdfUnreadable \/ why = NotUtf8 \/ why = Uncaught AttributeError.
Proof.
  intros Hok. unfold script.
  destruct (stage2 api_key upstream inp pg) as [s2 p2] eqn:E2.
  pose proof (stage2_ok _ _ _ _ Hok E2) as Ok2.
  destruct s2 as [| |w2].
  - destruct (stage3 inp p2) as [s3 p3] eqn:E3.
    pose proof (stage3_ok _ _ Ok2 E3) as Ok3.
    apply stage3_inv in E3. destruct E3 as (-> & _).
    intro E4. apply stage4_inv in E4.
    destruct E4 as [(Hn & _)|(Hs & [(Hn & _)|((_ & _ & He) & Hw)])];
      try discriminate.
    destruct (Hw why eq_refl) as [e ->].
    destruct (He e eq_refl) as [(-> & Hp) | ->]; [|auto].
    exfalso. destruct Ok3 as [K1 K2].
    destruct (K1 (K2 Hs)) as (S1 & S2 & S3).
    destruct (build_payload_ok
                (session_get (session p3) (py "email_input")) S1 S2 S3)
      as [payload Hpl].
    congruence.
  - discriminate.
  - intros [= <- _]. apply stage2_crash in E2. tauto.
Qed.

Lemma script_crash_causes_witness :
  let hook := hook_answer {| status_code := 200; text := py "[1, 2]" |} in
  let out := script (py "k") garbage_service hook (idle_inputs (py "a@b.c"))
               (fresh requested_session) in
  fst out = Crashed (Uncaught AttributeError)
  /\ (Uncaught AttributeError = PdfUnreadable
      \/ Uncaught AttributeError = NotUtf8
      \/ Uncaught AttributeError = Uncaught AttributeError).
Proof.
  split; [vm_compute; reflexivity|].
  apply (@script_crash_causes (py "k") garbage_service
           (hook_answer {| status_code := 200; text := py "[1, 2]" |})
           (idle_inputs (py "a@b.c")) (fresh requested_session)
           (snd (script (py "k") garbage_service
                   (hook_answer {| status_code := 200; text := py "[1, 2]" |})
                   (idle_inputs (py "a@b.c")) (fresh requested_session)))).
  - split; vm_compute; intros _; repeat split; discriminate.
  - vm_compute. reflexivity.
Defined.

(** X14.  Stage 4 resets [send_email] only when it runs to its end; when it
    stops or aborts, the session is unchanged and the request stays pending,
    so the next run enters stage 4 again. *)
Theorem stage4_pending_until_done
    (webhook : pyobj -> post_outcome) (pg pg' : Page) (st : status) :
  stage4 webhook pg = (st, pg') ->
  Obj.truthy (session_get (session pg) (py "send_email")) = true ->
  (st = Running
   /\ session_get (session pg') (py "send_email") = PyBool false)
  \/ (st <> Running /\ session pg' = session pg
      /\ Obj.truthy (session_get (session pg') (py "send_email")) = true).
Proof.
  intros H Hs. apply stage4_inv in H.
  destruct H as [(_ & _ & Hn)|(_ & [(-> & ->)|((Hst & Hss & _) & _)])].
  - congruence.
  - left. split; [reflexivity|]. apply DictFacts.get_set_same.
  - right. rewrite Hss. auto.
Qed.

Lemma stage4_pending_until_done_witness :
  let out := stage4 (hook_answer (with_status 500)) (fresh requested_session) in
  (fst out = Running
   /\ session_get (session (snd out)) (py "send_email") = PyBool false)
  \/ (fst out <> Running /\ session (snd out) = requested_session
      /\ Obj.truthy (session_get (session (snd out)) (py "send_email")) = true).
Proof.
  apply (@stage4_pending_until_done (hook_answer (with_status 500))
           (fresh requested_session)).
  - apply surjective_pairing.
  - vm_compute. reflexivity.
Defined.

Lemma stage4_posted webhook pg st pg' :
  stage4 webhook pg = (st, pg') ->
  sent pg' = sent pg
  /\ (posted pg' = posted pg
      \/ exists payload,
           posted pg' = posted pg ++ [payload]
           /\ Obj.truthy (session_get (session pg) (py "send_email")) = true
           /\ Obj.truthy (session_get (session pg) (py "email_input")) = true
           /\ build_payload (session pg)
                (session_get (session pg) (py "email_input")) = Ok payload).
Proof.
  unfold stage4. intro H.
  destruct (Obj.truthy (session_get (session pg) (py "send_email"))) eqn:Hs.
  2:{ injection H as _ <-. auto. }
  cbv zeta in H. cbn [session show] in H.
  destruct (Obj.truthy (session_get (session pg) (py "email_input"))) eqn:Hr;
    cbn [negb] in H.
  2:{ injection H as _ <-. auto. }
  destruct (build_payload (session pg)
              (session_get (session pg) (py "email_input")))
    as [payload|e] eqn:Hp.
  2:{ injection H as _ <-. auto. }
  assert (Post : forall q, sent q = sent pg ->
                   posted q = posted pg ++ [payload] ->
                   sent q = sent pg
                   /\ (posted q = posted pg
                       \/ exists payload0,
                            posted q = posted pg ++ [payload0]
                            /\ true = true /\ true = true
                            /\ Ok payload = Ok payload0)).
  { intros q Hq1 Hq2. split; [exact Hq1|]. right. exists payload. auto. }
  destruct (webhook payload) as [why|r].
  { injection H as _ <-. now apply Post. }
  destruct (is_http_error (status_code r)).
  { injection H as _ <-. now apply Post. }
  destruct (negb (Obj.truthy (PyStr (text r)))).
  { injection H as _ <-. now apply Post. }
  destruct (Json.loads (text r)) as [result|e].
  2:{ injection H as _ <-. now apply Post. }
  unfold present_result, Obj.get in H.
  destruct result;
    try (injection H as _ <-; now apply Post).
  destruct (Obj.lookup d (py "final_answer"));
    destruct (Obj.lookup d (py "email_body"));
    destruct (Obj.lookup d (py "email_status"));
    injection H as _ <-; now apply Post.
Qed.

(** X15.  Stage 4 posts to the webhook at most once, and only when an email
    is requested and a recipient is given; what it posts holds the stored
    document text, question and analysis together with that recipient. *)
Theorem stage4_posts_once
    (webhook : pyobj -> post_outcome) (pg pg' : Page) (st : status) :
  stage4 webhook pg = (st, pg') ->
  posted pg' = posted pg
  \/ exists document_text question structured_data,
       posted pg'
       = posted pg
         ++ [PyDict [ (py "document_text", document_text);
                      (py "question", question);
                      (py "structured_data", structured_data);
                      (py "recipient_email",
                       session_get (session pg) (py "email_input")) ]]
       /\ Obj.lookup (session pg) (py "extracted_text") = Some document_text
       /\ Obj.lookup (session pg) (py "user_question") = Some question
       /\ Obj.lookup (session pg) (py "structured_data")
          = Some structured_data
       /\ Obj.truthy (session_get (session pg) (py "send_email")) = true
       /\ Obj.truthy (session_get (session pg) (py "email_input")) = true.
Proof.
  intro H. apply stage4_posted in H.
  destruct H as [_ [H|(payload & Hp & Hs & Hr & Hb)]]; [now left|right].
  unfold build_payload, session_item in Hb.
  destruct (Obj.lookup (session pg) (py "extracted_text")) as [d|];
    [|discriminate].
  destruct (Obj.lookup (session pg) (py "user_question")) as [q|];
    [|discriminate].
  destruct (Obj.lookup (session pg) (py "structured_data")) as [sd|];
    [|discriminate].
  cbn [bind] in Hb. injection Hb as <-.
  exists d, q, sd. auto 10.
Qed.

Lemma stage4_posts_once_witness :
  let pg' := snd (stage4 (hook_answer (with_status 500))
                    (fresh requested_session)) in
  posted pg' = []
  \/ exists document_text question structured_data,
       posted pg'
       = [] ++ [PyDict [ (py "document_text", document_text);
                         (py "question", question);
                         (py "structured_data", structured_data);
                         (py "recipient_email",
                          session_get requested_session (py "email_input")) ]]
       /\ Obj.lookup requested_session (py "extracted_text")
          = Some document_text
       /\ Obj.lookup requested_session (py "user_question") = Some question
       /\ Obj.lookup requested_session (py "structured_data")
          = Some structured_data
       /\ Obj.truthy (session_get requested_session (py "send_email")) = true
       /\ Obj.truthy (session_get requested_session (py "email_input")) = true.
Proof.
  apply (@stage4_posts_once (hook_answer (with_status 500))
           (fresh requested_session) _
           (fst (stage4 (hook_answer (with_status 500))
                   (fresh requested_session)))).
  apply surjective_pairing.
Defined.

Lemma stage4_reaches_result webhook pg payload r result :
  Obj.truthy (session_get (session pg) (py "send_email")) = true ->
  Obj.truthy (session_get (session pg) (py "email_input")) = true ->
  build_payload (session pg) (session_get (session pg) (py "email_input"))
  = Ok payload ->
  webhook payload = Returned r ->
  is_http_error (status_code r) = false ->
  text r <> [] ->
  Json.loads (text r) = Ok result ->
  stage4 webhook pg
  = present_result result
      {| session := session pg; shown := shown_before_result pg result;
         sent := sent pg; posted := posted pg ++ [payload] |}.
Proof.
  intros Hs Hr Hp Hw Hh Ht Hl. unfold stage4.
  rewrite Hs. cbv zeta. cbn [session show]. rewrite Hr. cbn [negb].
  rewrite Hp, Hw, Hh.
  destruct (text r) as [|c t] eqn:Et; [contradiction|].
  cbn [Obj.truthy negb]. rewrite Hl.
  unfold show, with_posted, shown_before_result.
  cbn [session shown sent posted].
  now rewrite <- !app_assoc.
Qed.

(** X16.  When the webhook answers with valid JSON that is not an object (a
    list, a string, a number, null), the run aborts on the uncaught
    [AttributeError] of [result.get], after the answer has been displayed;
    the session is unchanged, so the email request stays pending. *)
Theorem stage4_non_object_answer
    (webhook : pyobj -> post_outcome) (pg : Page)
    (payload : pyobj) (r : Response) (result : pyobj) :
  Obj.truthy (session_get (session pg) (py "send_email")) = true ->
  Obj.truthy (session_get (session pg) (py "email_input")) = true ->
  build_payload (session pg) (session_get (session pg) (py "email_input"))
  = Ok payload ->
  webhook payload = Returned r ->
  is_http_error (status_code r) = false ->
  text r <> [] ->
  Json.loads (text r) = Ok result ->
  is_dict result = false ->
  fst (stage4 webhook pg) = Crashed (Uncaught AttributeError)
  /\ session (snd (stage4 webhook pg)) = session pg
  /\ shown (snd (stage4 webhook pg)) = shown_before_result pg result.
Proof.
  intros Hs Hr Hp Hw Hh Ht Hl Hd.
  rewrite (stage4_reaches_result _ _ Hs Hr Hp Hw Hh Ht Hl).
  unfold present_result, Obj.get.
  destruct result; try discriminate; auto.
Qed.

Lemma stage4_non_object_answer_witness :
  let hook := hook_answer {| status_code := 200; text := py "[1, 2]" |} in
  let out := stage4 hook (fresh requested_session) in
  fst out = Crashed (Uncaught AttributeError)
  /\ session (snd out) = requested_session
  /\ shown (snd out)
     = shown_before_result (fresh requested_session)
         (PyList [PyInt 1; PyInt 2]).
Proof.
  apply (@stage4_non_object_answer
           (hook_answer {| status_code := 200; text := py "[1, 2]" |})
           (fresh requested_session)
           (PyDict [ (py "document_text", PyStr (py "the document"));
                     (py "question", PyStr (py "q"));
                     (py "structured_data",
                      PyDict [(py "risk_level", PyStr (py "Low"))]);
                     (py "recipient_email", PyStr (py "a@b.c")) ])
           {| status_code := 200; text := py "[1, 2]" |}
           (PyList [PyInt 1; PyInt 2])).
  - vm_compute. reflexivity.
  - vm_compute. reflexivity.
  - vm_compute. reflexivity.
  - reflexivity.
  - vm_compute. reflexivity.
  - vm_compute. discriminate.
  - vm_compute. reflexivity.
  - reflexivity.
Defined.

(** X17.  When the webhook answers with a JSON object, stage 4 runs to its
    end: it displays the final answer, the email body and the email status,
    each replaced by "Not returned by webhook" when the object lacks the
    key, and resets [send_email]. *)
Theorem stage4_object_answer
    (webhook : pyobj -> post_outcome) (pg : Page)
    (payload : pyobj) (r : Response) (d : list (pystr * pyobj)) :
  Obj.truthy (session_get (session pg) (py "send_email")) = true ->
  Obj.truthy (session_get (session pg) (py "email_input")) = true ->
  build_payload (session pg) (session_get (session pg) (py "email_input"))
  = Ok payload ->
  webhook payload = Returned r ->
  is_http_error (status_code r) = false ->
  text r <> [] ->
  Json.loads (text r) = Ok (PyDict d) ->
  fst (stage4 webhook pg) = Running
  /\ shown (snd (stage4 webhook pg))
     = shown_before_result pg (PyDict d)
       ++ [ Subheader ([128202%N] ++ py " Final Analytical Answer");
            Write (field_or_default d (py "final_answer"));
            Subheader ([128231%N] ++ py " Generated Email Body");
            TextArea (py "Email") (field_or_default d (py "email_body")) 200;
            SuccessEmailStatus (field_or_default d (py "email_status")) ]
  /\ session_get (session (snd (stage4 webhook pg))) (py "send_email")
     = PyBool false
  /\ posted (snd (stage4 webhook pg)) = posted pg ++ [payload].
Proof.
  intros Hs Hr Hp Hw Hh Ht Hl.
  rewrite (stage4_reaches_result _ _ Hs Hr Hp Hw Hh Ht Hl).
  unfold present_result, Obj.get, field_or_default, not_returned.
  destruct (Obj.lookup d (py "final_answer"));
    destruct (Obj.lookup d (py "email_body"));
    destruct (Obj.lookup d (py "email_status"));
    cbn [fst snd session shown posted show with_session];
    repeat split; try reflexivity; apply DictFacts.get_set_same.
Qed.

Lemma stage4_object_answer_witness :
  let hook := hook_answer {| status_code := 200;
                             text := pyq "{'email_status': 'sent'}" |} in
  let out := stage4 hook (fresh requested_session) in
  let d := [(py "email_status", PyStr (py "sent"))] in
  fst out = Running
  /\ shown (snd out)
     = shown_before_result (fresh requested_session) (PyDict d)
       ++ [ Subheader ([128202%N] ++ py " Final Analytical Answer");
            Write (field_or_default d (py "final_answer"));
            Subheader ([128231%N] ++ py " Generated Email Body");
            TextArea (py "Email") (field_or_default d (py "email_body")) 200;
            SuccessEmailStatus (field_or_default d (py "email_status")) ]
  /\ session_get (session (snd out)) (py "send_email") = PyBool false
  /\ posted (snd out)
     = [] ++ [PyDict [ (py "document_text", PyStr (py "the document"));
                       (py "question", PyStr (py "q"));
                       (py "structured_data",
                        PyDict [(py "risk_level", PyStr (py "Low"))]);
                       (py "recipient_email", PyStr (py "a@b.c")) ]].
Proof.
  apply (@stage4_object_answer
           (hook_answer {| status_code := 200;
                           text := pyq "{'email_status': 'sent'}" |})
           (fresh requested_session)
           (PyDict [ (py "document_text", PyStr (py "the document"));
                     (py "question", PyStr (py "q"));
                     (py "structured_data",
                      PyDict [(py "risk_level", PyStr (py "Low"))]);
                     (py "recipient_email", PyStr (py "a@b.c")) ])
           {| status_code := 200; text := pyq "{'email_status': 'sent'}" |}
           [(py "email_status", PyStr (py "sent"))]).
  - vm_compute. reflexivity.
  - vm_compute. reflexivity.
  - vm_compute. reflexivity.
  - reflexivity.
  - vm_compute. reflexivity.
  - vm_compute. discriminate.
  - vm_compute. reflexivity.
Defined.

(** X18.  One run of the script sends at most four requests to the model
    and posts at most one payload to the webhook. *)
Theorem script_traffic_bounds
    (api_key : pystr) (upstream : nat -> Request -> post_outcome)
    (webhook : pyobj -> post_outcome)
    (inp : Inputs) (pg : Page) :
  let pg' := snd (script api_key upstream webhook inp pg) in
  (exists extra, sent pg' = sent pg ++ extra /\ length extra <= 4)
  /\ (posted pg' = posted pg
      \/ exists payload, posted pg' = posted pg ++ [payload]).
Proof.
  cbv zeta. unfold script.
  destruct (stage2 api_key upstream inp pg) as [s2 p2] eqn:E2.
  pose proof (stage2_sent _ _ _ _ E2) as S2.
  apply stage2_inv in E2. destruct E2 as [P2 _].
  destruct s2; cbn [snd]; try (split; [exact S2|now left]).
  destruct (stage3 inp p2) as [s3 p3] eqn:E3.
  apply stage3_inv in E3. destruct E3 as (-> & P3 & S3 & _).
  destruct (stage4 webhook p3) as [s4 p4] eqn:E4. cbn [snd].
  apply stage4_posted in E4. destruct E4 as [S4 P4].
  split.
  - rewrite S4, S3. exact S2.
  - rewrite <- P2, <- P3.
    destruct P4 as [->|(payload & -> & _)]; [now left|right; eauto].
Qed.
